(** * Oracle dialect of the Cube SQL compiler: a shallow embedding

    Source: packages/cubejs-schema-compiler/src/adapter/OracleQuery.ts
    (classes [OracleFilter] and [OracleQuery]).

    The dialect is a pure text transform over JavaScript values, so the
    embedding keeps JavaScript's data as the code sees it: [undefined] and
    [null] are different values, numbers carry [NaN] and the infinities,
    conditions go through ToBoolean, template literals through ToString and
    [parseInt] reads the longest numeric prefix of a string.  JavaScript
    objects used as dictionaries are finite maps keyed by strings. *)

From Stdlib Require Import Ascii.
From stdpp Require Import base numbers strings list gmap pretty.

(** ** JavaScript values *)

Module JS.

(** Numbers.  The model covers the doubles the dialect's arithmetic is
    exact on: [Int z] stands for the integer-valued double [z] and is meant
    for the safe integers, [-(2^53 - 1) <= z <= 2^53 - 1]; [NaN] and the two
    infinities are kept because the code tests for them.  Fractional doubles
    and integers beyond the safe range are not represented: on them [+] and
    [*] round, Number::toString switches to the shortest round-trip digits
    and to the exponent form, and [parseInt] rounds what it reads.  A
    statement below whose content is the value computed, printed or read
    back therefore assumes [isSafeInteger] of the numbers involved and of
    the intermediate results; a statement that only compares a number with
    a small constant, or evaluates the code on closed inputs, does not need
    the assumption. *)
Inductive number :=
| Int (z : Z)
| NaN
| Infinity (negative : bool).

(** The values the dialect receives: [string | number | null | undefined]. *)
Inductive value :=
| Undefined
| Null
| Number (n : number)
| Str (s : string).

Global Instance number_eq_dec : EqDecision number.
Proof. solve_decision. Defined.
Global Instance value_eq_dec : EqDecision value.
Proof. solve_decision. Defined.

(** [Number.MAX_SAFE_INTEGER] and [Number.isSafeInteger]. *)
Definition MAX_SAFE_INTEGER : Z := 2 ^ 53 - 1.

Definition isSafeInteger (n : number) : bool :=
  match n with
  | Int z => ((- MAX_SAFE_INTEGER <=? z) && (z <=? MAX_SAFE_INTEGER))%Z
  | _ => false
  end.

(** [Number.isFinite]. *)
Definition isFinite (n : number) : bool :=
  match n with Int _ => true | _ => false end.

(** ToBoolean on numbers and on values. *)
Definition truthyNumber (n : number) : bool :=
  match n with
  | Int z => negb (z =? 0)%Z
  | NaN => false
  | Infinity _ => true
  end.

Definition truthy (v : value) : bool :=
  match v with
  | Undefined | Null => false
  | Number n => truthyNumber n
  | Str s => negb (String.eqb s "")
  end.

(** Number::toString (radix 10) and ToString.  The decimal digits of a
    safe integer; the exponent form, which starts at [1e21], is outside the
    model. *)
Definition numberToString (n : number) : string :=
  match n with
  | Int z => pretty z
  | NaN => "NaN"
  | Infinity false => "Infinity"
  | Infinity true => "-Infinity"
  end.

Definition toString (v : value) : string :=
  match v with
  | Undefined => "undefined"
  | Null => "null"
  | Number n => numberToString n
  | Str s => s
  end.

(** Arithmetic [+] and [*] on numbers: the double operations wherever the
    operands and the result are safe integers, NaN or infinite; rounding,
    which sets in beyond the safe range, is outside the model. *)
Definition add (a b : number) : number :=
  match a, b with
  | NaN, _ | _, NaN => NaN
  | Int x, Int y => Int (x + y)
  | Infinity s, Int _ | Int _, Infinity s => Infinity s
  | Infinity s, Infinity t => if bool_decide (s = t) then Infinity s else NaN
  end.

Definition mul (a b : number) : number :=
  match a, b with
  | NaN, _ | _, NaN => NaN
  | Int x, Int y => Int (x * y)
  | Infinity s, Int y | Int y, Infinity s =>
      if (y =? 0)%Z then NaN else Infinity (xorb s (y <? 0)%Z)
  | Infinity s, Infinity t => Infinity (xorb s t)
  end.

(** Strict equality [===] and the relational [>=] on numbers. *)
Definition strictEq (a b : number) : bool :=
  match a, b with
  | Int x, Int y => (x =? y)%Z
  | Infinity s, Infinity t => bool_decide (s = t)
  | _, _ => false
  end.

Definition geb (a b : number) : bool :=
  match a, b with
  | NaN, _ | _, NaN => false
  | Int x, Int y => (y <=? x)%Z
  | Infinity s, Int _ => negb s
  | Int _, Infinity t => t
  | Infinity s, Infinity t => orb (negb s) t
  end.

(** The relational [<=] and [>] on numbers, and [Number.isNaN]. *)
Definition leb (a b : number) : bool := geb b a.

Definition gtb (a b : number) : bool :=
  match a, b with
  | NaN, _ | _, NaN => false
  | Int x, Int y => (y <? x)%Z
  | Infinity s, Int _ => negb s
  | Int _, Infinity t => t
  | Infinity s, Infinity t => negb s && t
  end.

Definition isNaN (n : number) : bool :=
  match n with NaN => true | _ => false end.

(** [a === b] on values. *)
Definition strictEqValue (a b : value) : bool :=
  match a, b with
  | Undefined, Undefined | Null, Null => true
  | Number m, Number n => strictEq m n
  | Str s, Str t => String.eqb s t
  | _, _ => false
  end.

(** [v == null], which holds for [null] and [undefined] alone. *)
Definition isNullish (v : value) : bool :=
  match v with Undefined | Null => true | _ => false end.

(** [a || b] on numbers, and on a possibly missing array element. *)
Definition orElse (a : option number) (b : number) : number :=
  match a with
  | Some n => if truthyNumber n then n else b
  | None => b
  end.

(** A property read on a dictionary of numbers gives a number or
    [undefined]: ToBoolean and ToNumber of that result. *)
Definition truthyProperty (p : option number) : bool :=
  match p with
  | Some n => truthyNumber n
  | None => false
  end.

Definition propertyToNumber (p : option number) : number :=
  match p with
  | Some n => n
  | None => NaN
  end.

Definition propertyToString (p : option number) : string :=
  match p with
  | Some n => numberToString n
  | None => "undefined"
  end.

(** *** parseInt(string, 10) *)

(** Characters are code units below 256.  White space skipped by
    [parseInt]: the code units 9 to 13 (TAB, LF, VT, FF, CR), 32 (SP) and
    160 (NBSP). *)
Definition codeUnit (c : ascii) : Z := Z.of_N (N_of_ascii c).

Definition isWhiteSpace (c : ascii) : bool :=
  let u := codeUnit c in
  ((9 <=? u) && (u <=? 13) || (u =? 32) || (u =? 160))%Z.

(** A decimal digit is a code unit from 48 to 57; its value is the distance
    to 48. *)
Definition digitValue (c : ascii) : option Z :=
  let u := codeUnit c in
  if ((48 <=? u) && (u <=? 57))%Z then Some (u - 48)%Z else None.

Fixpoint trimStart (s : string) : string :=
  match s with
  | String c s' => if isWhiteSpace c then trimStart s' else s
  | EmptyString => s
  end.

(** Value of the longest prefix of decimal digits, most significant
    digit first; [acc] is the value read so far.  This is the mathematical
    integer [parseInt] computes; it is the number [parseInt] returns when it
    is a safe integer, and rounded to a double otherwise. *)
Fixpoint parseDigits (s : string) (acc : Z) : Z :=
  match s with
  | String c s' =>
      match digitValue c with
      | Some d => parseDigits s' (acc * 10 + d)
      | None => acc
      end
  | EmptyString => acc
  end.

(** The digits after the optional sign; [NaN] when there is none. *)
Definition parseMagnitude (sign : Z) (s : string) : number :=
  match s with
  | String c _ =>
      match digitValue c with
      | Some _ => Int (sign * parseDigits s 0)
      | None => NaN
      end
  | EmptyString => NaN
  end.

Definition parseIntString (s : string) : number :=
  match trimStart s with
  | String "-"%char rest => parseMagnitude (-1) rest
  | String "+"%char rest => parseMagnitude 1 rest
  | rest => parseMagnitude 1 rest
  end.

(** [parseInt(v, 10)]: the argument is first converted with ToString. *)
Definition parseInt (v : value) : number := parseIntString (toString v).

(** [String.prototype.split] with a one-character separator. *)
Fixpoint split (sep : ascii) (s : string) : list string :=
  match s with
  | EmptyString => [""]
  | String c s' =>
      if bool_decide (c = sep) then "" :: split sep s'
      else match split sep s' with
           | h :: t => String c h :: t
           | [] => [String c ""]
           end
  end.

End JS.

(** ** The query object

    The fields of [this] that the dialect reads.  [BaseQuery] stores the
    constructor options and copies [rowLimit] and [offset] out of them;
    [getEnv('oracleVersion', ...)] is the optional version override and
    [forSelect()] the projected members, both supplied by collaborators. *)

Record Options := { limit : JS.value }.

(** A projected member as [groupByClause] looks at it: the [dimension]
    property, the optional [selectColumns] method together with what it
    returns ([null] or an array), and the text [dimensionSql()] renders. *)
Record SelectItem := {
  dimension : JS.value;
  selectColumns : option (option (list string));
  dimensionSql : string;
}.

Record OracleQuery := {
  rowLimit : JS.value;
  options : option Options;
  offset : JS.value;
  oracleVersion : option string;
  forSelect : list SelectItem;
}.

Definition GRANULARITY_VALUE : gmap string string :=
  {[ "day" := "DD"; "week" := "IW"; "hour" := "HH24"; "minute" := "mm";
     "second" := "ss"; "month" := "MM"; "year" := "YYYY" ]}.

(** Property read [obj[key]] on a dictionary of strings, for the keys that
    are not properties of [Object.prototype] (such as [toString]), which a
    JavaScript object inherits and the dictionary does not hold. *)
Definition getProperty (obj : gmap string string) (key : JS.value) : JS.value :=
  match obj !! JS.toString key with
  | Some s => JS.Str s
  | None => JS.Undefined
  end.

(** ** Pagination *)

Definition resolvedRowLimit (this : OracleQuery) : JS.value :=
  match rowLimit this with
  | JS.Undefined =>
      match options this with
      | Some o => limit o
      | None => JS.Undefined
      end
  | v => v
  end.

Definition parseRowLimit (rawLimit : JS.value) : JS.number :=
  match rawLimit with
  | JS.Null | JS.Undefined => JS.Int 10000
  | _ =>
      let parsed :=
        match rawLimit with
        | JS.Number n => n
        | _ => JS.parseInt rawLimit
        end in
      if JS.isFinite parsed then parsed else JS.Int 10000
  end.

Definition supportsOffsetFetch (this : OracleQuery) : bool :=
  match oracleVersion this with
  | Some envVersion =>
      if JS.truthy (JS.Str envVersion) then
        let parts := JS.parseIntString <$> JS.split "."%char envVersion in
        let major := JS.orElse (head parts) (JS.Int 12) in
        JS.geb major (JS.Int 12)
      else true
  | None => true
  end.

Definition groupByDimensionLimit (this : OracleQuery) : string :=
  if negb (supportsOffsetFetch this) then ""
  else
    let rawRowLimit := resolvedRowLimit this in
    let limitClause :=
      if bool_decide (rawRowLimit = JS.Null) then ""
      else " FETCH NEXT " +:+ JS.numberToString (parseRowLimit rawRowLimit)
           +:+ " ROWS ONLY" in
    let offsetClause :=
      if JS.truthy (offset this)
      then " OFFSET " +:+ JS.numberToString (JS.parseInt (offset this)) +:+ " ROWS"
      else "" in
    offsetClause +:+ limitClause.

(** The line feed of the multi-line template literal. *)
Definition LF : string := String "010"%char "".

Definition wrapQueryWithRownum (this : OracleQuery) (query : string) : string :=
  let rawRowLimit := resolvedRowLimit this in
  if bool_decide (rawRowLimit = JS.Null) && negb (JS.truthy (offset this)) then query
  else
    let limit := parseRowLimit rawRowLimit in
    let offset :=
      if JS.truthy (offset this) then JS.parseInt (offset this) else JS.Int 0 in
    if JS.strictEq offset (JS.Int 0) then
      "SELECT * FROM (" +:+ query +:+ ") WHERE ROWNUM <= " +:+ JS.numberToString limit
    else
      let maxRow := JS.add offset limit in
      "SELECT * FROM (" +:+ LF +:+
      "  SELECT a.*, ROWNUM rnum FROM (" +:+ LF +:+
      query +:+ LF +:+
      "  ) a WHERE ROWNUM <= " +:+ JS.numberToString maxRow +:+ LF +:+
      ") WHERE rnum > " +:+ JS.numberToString offset.

(** Modelled from the spec: [BaseQuery.buildSqlAndParams] is not part of the
    dialect file.  Sections 4.2 (step 7) and 4.4 of the specification: the
    builder assembles the unpaginated SQL text with its bound parameters and
    the native strategy appends the dialect's offset/limit clause, which the
    base class obtains from the overridable [groupByDimensionLimit]. *)
Definition superBuildSqlAndParams (this : OracleQuery)
    (unpaginated : string * list JS.value) : string * list JS.value :=
  (unpaginated.1 +:+ groupByDimensionLimit this, unpaginated.2).

Definition buildSqlAndParams (this : OracleQuery)
    (unpaginated : string * list JS.value) : string * list JS.value :=
  let '(sql, params) := superBuildSqlAndParams this unpaginated in
  let rawRowLimit := resolvedRowLimit this in
  let needsRownumPagination :=
    negb (supportsOffsetFetch this)
    && (negb (bool_decide (rawRowLimit = JS.Null)) || JS.truthy (offset this)) in
  if needsRownumPagination then (wrapQueryWithRownum this sql, params)
  else (sql, params).

(** ** Grouping and time bucketing *)

Definition isSelectable (item : SelectItem) : bool :=
  JS.truthy (dimension item)
  && match selectColumns item with
     | Some (Some _) => true
     | Some None | None => false
     end.

Definition groupByClause (this : OracleQuery) : string :=
  let dimensions := filter (λ item, isSelectable item = true) (forSelect this) in
  if bool_decide (length dimensions = 0) then ""
  else " GROUP BY " +:+ String.concat ", " (dimensionSql <$> dimensions).

Definition timeGroupedColumn (granularity : JS.value) (dimension : string) : string :=
  if negb (JS.truthy granularity) then dimension
  else "TRUNC(" +:+ dimension +:+ ", '"
       +:+ JS.toString (getProperty GRANULARITY_VALUE granularity) +:+ "')".

(** ** Interval arithmetic

    [parseSqlInterval] belongs to the shared package; the dialect only reads
    the properties of the object it returns, so the two methods take the
    parser as a parameter and see its result as a dictionary of numbers. *)

Abbreviation ParsedInterval := (gmap string JS.number).

Section Intervals.

Variable parseSqlInterval : string → ParsedInterval.

Definition addInterval (date interval : string) : string :=
  let intervalParsed := parseSqlInterval interval in
  let res := date in
  let totalMonths := JS.Int 0 in
  let totalMonths :=
    if JS.truthyProperty (intervalParsed !! "year")
    then JS.add totalMonths
           (JS.mul (JS.propertyToNumber (intervalParsed !! "year")) (JS.Int 12))
    else totalMonths in
  let totalMonths :=
    if JS.truthyProperty (intervalParsed !! "quarter")
    then JS.add totalMonths
           (JS.mul (JS.propertyToNumber (intervalParsed !! "quarter")) (JS.Int 3))
    else totalMonths in
  let totalMonths :=
    if JS.truthyProperty (intervalParsed !! "month")
    then JS.add totalMonths (JS.propertyToNumber (intervalParsed !! "month"))
    else totalMonths in
  let res :=
    if negb (JS.strictEq totalMonths (JS.Int 0))
    then "ADD_MONTHS(" +:+ res +:+ ", " +:+ JS.numberToString totalMonths +:+ ")"
    else res in
  let res :=
    if JS.truthyProperty (intervalParsed !! "day")
    then res +:+ " + NUMTODSINTERVAL("
         +:+ JS.propertyToString (intervalParsed !! "day") +:+ ", 'DAY')"
    else res in
  let res :=
    if JS.truthyProperty (intervalParsed !! "hour")
    then res +:+ " + NUMTODSINTERVAL("
         +:+ JS.propertyToString (intervalParsed !! "hour") +:+ ", 'HOUR')"
    else res in
  let res :=
    if JS.truthyProperty (intervalParsed !! "minute")
    then res +:+ " + NUMTODSINTERVAL("
         +:+ JS.propertyToString (intervalParsed !! "minute") +:+ ", 'MINUTE')"
    else res in
  let res :=
    if JS.truthyProperty (intervalParsed !! "second")
    then res +:+ " + NUMTODSINTERVAL("
         +:+ JS.propertyToString (intervalParsed !! "second") +:+ ", 'SECOND')"
    else res in
  res.

Definition subtractInterval (date interval : string) : string :=
  let intervalParsed := parseSqlInterval interval in
  let res := date in
  let totalMonths := JS.Int 0 in
  let totalMonths :=
    if JS.truthyProperty (intervalParsed !! "year")
    then JS.add totalMonths
           (JS.mul (JS.propertyToNumber (intervalParsed !! "year")) (JS.Int 12))
    else totalMonths in
  let totalMonths :=
    if JS.truthyProperty (intervalParsed !! "quarter")
    then JS.add totalMonths
           (JS.mul (JS.propertyToNumber (intervalParsed !! "quarter")) (JS.Int 3))
    else totalMonths in
  let totalMonths :=
    if JS.truthyProperty (intervalParsed !! "month")
    then JS.add totalMonths (JS.propertyToNumber (intervalParsed !! "month"))
    else totalMonths in
  let res :=
    if negb (JS.strictEq totalMonths (JS.Int 0))
    then "ADD_MONTHS(" +:+ res +:+ ", -" +:+ JS.numberToString totalMonths +:+ ")"
    else res in
  let res :=
    if JS.truthyProperty (intervalParsed !! "day")
    then res +:+ " - NUMTODSINTERVAL("
         +:+ JS.propertyToString (intervalParsed !! "day") +:+ ", 'DAY')"
    else res in
  let res :=
    if JS.truthyProperty (intervalParsed !! "hour")
    then res +:+ " - NUMTODSINTERVAL("
         +:+ JS.propertyToString (intervalParsed !! "hour") +:+ ", 'HOUR')"
    else res in
  let res :=
    if JS.truthyProperty (intervalParsed !! "minute")
    then res +:+ " - NUMTODSINTERVAL("
         +:+ JS.propertyToString (intervalParsed !! "minute") +:+ ", 'MINUTE')"
    else res in
  let res :=
    if JS.truthyProperty (intervalParsed !! "second")
    then res +:+ " - NUMTODSINTERVAL("
         +:+ JS.propertyToString (intervalParsed !! "second") +:+ ", 'SECOND')"
    else res in
  res.

End Intervals.

(** Modelled from the spec: [parseSqlInterval] of the shared package, which
    is not part of the dialect file.  The specification (sections 2, 3 and 6)
    describes it as parsing a composite duration expression such as
    "1 year 2 quarter 3 month 4 day" into a mapping from unit to signed
    integer magnitude, over the granularities minus week, in which only the
    explicitly mentioned units are present, and which is empty when a token
    is not recognized. *)
Definition intervalUnits : list string :=
  ["year"; "quarter"; "month"; "day"; "hour"; "minute"; "second"].

Fixpoint parseIntervalTokens (tokens : list string) (acc : ParsedInterval)
    : option ParsedInterval :=
  match tokens with
  | [] => Some acc
  | magnitude :: unit :: rest =>
      match JS.parseIntString magnitude with
      | JS.Int z =>
          if bool_decide (unit ∈ intervalUnits)
          then parseIntervalTokens rest (<[unit := JS.Int z]> acc)
          else None
      | _ => None
      end
  | [_] => None
  end.

Definition parseSqlInterval (text : string) : ParsedInterval :=
  default ∅ (parseIntervalTokens (JS.split " "%char text) ∅).

(** ** Filters

    [likeIgnoreCase] allocates one bound parameter while it renders, so it
    runs in a state monad over the allocator's list of bound values. *)

Definition Alloc (A : Type) : Type := list JS.value → A * list JS.value.

Global Instance Alloc_ret : MRet Alloc := λ A a params, (a, params).

Global Instance Alloc_bind : MBind Alloc :=
  λ A B k m params, let '(a, params') := m params in k a params'.

Section OracleFilter.

(** [BaseFilter.allocateParam], inherited by the dialect's filter. *)
Variable allocateParam : JS.value → Alloc string.

Definition castParameter : string := ":" +:+ String "034"%char "?" +:+ String "034"%char "".

Definition likeIgnoreCase (column : string) (not param type : JS.value)
    : Alloc string :=
  let p :=
    if negb (JS.truthy type) || bool_decide (type = JS.Str "contains")
       || bool_decide (type = JS.Str "ends")
    then "'%' || " else "" in
  let s :=
    if negb (JS.truthy type) || bool_decide (type = JS.Str "contains")
       || bool_decide (type = JS.Str "starts")
    then " || '%'" else "" in
  placeholder ← allocateParam param;
  mret (column +:+ (if JS.truthy not then " NOT" else "") +:+ " LIKE "
       +:+ p +:+ placeholder +:+ s).

End OracleFilter.

(** Modelled from the spec: the parameter allocator of the base classes,
    which is not part of the dialect file.  Section 2 of the specification:
    it assigns a placeholder and accumulates the parallel list of bound
    values in emission order. *)
Definition allocateParam (param : JS.value) : Alloc string :=
  λ params, ("?", params ++ [param]).

(** ** Pre-aggregation table names *)

Inductive UserError := MkUserError (message : string).

Inductive result (A : Type) :=
| Return (a : A)
| Throw (e : UserError).
Arguments Return {A} a.
Arguments Throw {A} e.

Section PreAggregations.

(** [BaseQuery.preAggregationTableName], reached through [super]. *)
Variable superPreAggregationTableName : string → string → bool → string.

Definition preAggregationTableName (cube preAggregationName : string)
    (skipSchema : bool) : result string :=
  let name := superPreAggregationTableName cube preAggregationName skipSchema in
  if (128 <? String.length name)%nat then
    Throw (MkUserError
      ("Oracle can not work with table names that longer than 64 symbols. "
       +:+ "Consider using the 'sqlAlias' attribute in your cube and in your "
       +:+ "pre-aggregation definition for " +:+ name +:+ "."))
  else Return name.

End PreAggregations.

(** ** Aliases, time zones and casts *)

Definition asSyntaxTable : string := "".

Definition asSyntaxJoin : string := asSyntaxTable.

Definition convertTz (field : string) : string := field.

(** The double quote, for the literals that contain it. *)
Definition DQ : string := String "034"%char "".

Definition dateTimeCast (value : string) : string :=
  "CAST(TO_TIMESTAMP_TZ(:" +:+ DQ +:+ value +:+ DQ +:+ ", 'YYYY-MM-DD" +:+ DQ +:+ "T"
  +:+ DQ +:+ "HH24:MI:SS.FF" +:+ DQ +:+ "Z" +:+ DQ +:+ "') AS DATE)".

Definition timeStampCast (value : string) : string :=
  "TO_TIMESTAMP_TZ(:" +:+ DQ +:+ value +:+ DQ +:+ ", 'YYYY-MM-DD" +:+ DQ +:+ "T"
  +:+ DQ +:+ "HH24:MI:SS.FF" +:+ DQ +:+ "Z" +:+ DQ +:+ "')".

(** A time dimension as [timeStampParam] looks at it: what its
    [dateFieldType()] returns. *)
Record TimeDimension := { dateFieldType : JS.value }.

Definition timeStampParam (timeDimension : TimeDimension) : string :=
  if bool_decide (dateFieldType timeDimension = JS.Str "string")
  then ":" +:+ DQ +:+ "?" +:+ DQ
  else timeStampCast "?".

Definition unixTimestampSql : string :=
  "((cast (systimestamp at time zone 'UTC' as date) - date '1970-01-01') * 86400)".

(** ** The dialect file's second listing: pagination by row number

    The source file carries a second listing of the dialect, which leaves
    [groupByDimensionLimit] empty and paginates every statement in
    [buildParamAnnotatedSql].  Its members that differ from the first
    listing are kept in a module of their own. *)

Module RowNumber.

Definition groupByDimensionLimit (this : OracleQuery) : string := "".

Definition groupByClause (this : OracleQuery) : string :=
  let dimensions := filter (λ item, JS.truthy (dimension item) = true) (forSelect this) in
  if bool_decide (length dimensions = 0) then ""
  else " GROUP BY " +:+ String.concat ", " (dimensionSql <$> dimensions).

(** ToBoolean and ToString of a value that is a string or null. *)
Definition truthyText (t : option string) : bool :=
  match t with
  | Some s => JS.truthy (JS.Str s)
  | None => false
  end.

Definition textToString (t : option string) : string :=
  match t with
  | Some s => s
  | None => "null"
  end.

Section Pagination.

(** The constant of the shared package, whose type the dialect file leaves
    open (it is compared with a limit that is a string or a number), the
    allocator of the base query and the base class's identifier quoting. *)
Variable MAX_SOURCE_ROW_LIMIT : JS.value.
Variable allocateParam : JS.value → Alloc string.
Variable escapeColumnName : string → string.

Definition rowLimitSql (this : OracleQuery) : Alloc (option string) :=
  if JS.isNullish (rowLimit this) then mret None
  else if JS.strictEqValue (rowLimit this) MAX_SOURCE_ROW_LIMIT then
    placeholder ← allocateParam MAX_SOURCE_ROW_LIMIT;
    mret (Some placeholder)
  else
    let numeric := JS.parseInt (rowLimit this) in
    if JS.isNaN numeric then mret None
    else mret (Some (JS.numberToString numeric)).

Definition offsetValue (this : OracleQuery) : option JS.number :=
  if JS.isNullish (offset this) then None
  else
    let parsed := JS.parseInt (offset this) in
    if JS.isNaN parsed then None else Some parsed.

Definition applyRowNumberPagination (this : OracleQuery) (sql : string) : Alloc string :=
  limitExpression ← rowLimitSql this;
  let offsetValue := offsetValue this in
  if negb (truthyText limitExpression)
     && match offsetValue with
        | None => true
        | Some n => JS.leb n (JS.Int 0)
        end
  then mret sql
  else
    let wrappedLimit :=
      if truthyText limitExpression
      then Some ("(" +:+ textToString limitExpression +:+ ")")
      else None in
    let offsetNumber :=
      match offsetValue with
      | Some n => if JS.truthyNumber n && JS.gtb n (JS.Int 0) then n else JS.Int 0
      | None => JS.Int 0
      end in
    if JS.strictEq offsetNumber (JS.Int 0) && truthyText wrappedLimit then
      mret ("SELECT * FROM (" +:+ sql +:+ ") pagination_q WHERE ROWNUM <= "
            +:+ textToString wrappedLimit)
    else
      let rowNumAlias := escapeColumnName "row_num__" in
      let upperBoundExpr :=
        if truthyText wrappedLimit
        then if JS.gtb offsetNumber (JS.Int 0)
             then Some (JS.numberToString offsetNumber +:+ " + " +:+ textToString wrappedLimit)
             else wrappedLimit
        else None in
      let innerWhere :=
        if truthyText upperBoundExpr
        then " WHERE ROWNUM <= " +:+ textToString upperBoundExpr
        else "" in
      let conditions : list string := [] in
      let conditions :=
        if JS.gtb offsetNumber (JS.Int 0)
        then conditions ++ [rowNumAlias +:+ " > " +:+ JS.numberToString offsetNumber]
        else conditions in
      let conditions :=
        if truthyText upperBoundExpr
        then conditions ++ [rowNumAlias +:+ " <= " +:+ textToString upperBoundExpr]
        else conditions in
      let outerWhere :=
        if bool_decide (length conditions = 0) then ""
        else " WHERE " +:+ String.concat " AND " conditions in
      mret ("SELECT * FROM (SELECT inner_q.*, ROWNUM " +:+ rowNumAlias +:+ " FROM ("
            +:+ sql +:+ ") inner_q" +:+ innerWhere +:+ ") outer_q" +:+ outerWhere).

(** [super.buildParamAnnotatedSql()] is the statement the base class
    builds; the dialect paginates it. *)
Definition buildParamAnnotatedSql (this : OracleQuery) (superSql : Alloc string)
    : Alloc string :=
  sql ← superSql;
  applyRowNumberPagination this sql.

End Pagination.

End RowNumber.

(** * Vocabulary of the specification

    The notions the statements below are phrased in: the shapes the
    specification describes, next to the code's own definitions above. *)

Definition isDigit (c : ascii) : Prop := is_Some (JS.digitValue c).

(** A limit or offset of [k] rows, [k] a safe integer, reaches the dialect
    as the number [k] or as text that [parseInt] reads as [k]. *)
Definition denotes (v : JS.value) (k : Z) : Prop :=
  JS.isSafeInteger (JS.Int k) = true
  ∧ (v = JS.Number (JS.Int k) ∨ ∃ s, v = JS.Str s ∧ JS.parseIntString s = JS.Int k).

(** A limit or offset that no integer can be read from: null, undefined,
    NaN, an infinity, or text without a numeric prefix. *)
Definition unreadable (v : JS.value) : Prop :=
  v = JS.Undefined ∨ v = JS.Null ∨ v = JS.Number JS.NaN
  ∨ (∃ negative, v = JS.Number (JS.Infinity negative))
  ∨ ∃ s, v = JS.Str s ∧ JS.parseIntString s = JS.NaN.

(** The two forms of section 4.4 of the specification, in the dialect's
    spelling: one wrap bounded by the limit, and two wraps where the middle
    layer bounds the ordinal and aliases it and the outer layer filters the
    alias. *)
Definition singleWrapForm (inner : string) (bound : Z) : string :=
  "SELECT * FROM (" +:+ inner +:+ ") WHERE ROWNUM <= " +:+ pretty bound.

Definition doubleWrapForm (inner : string) (bound skipped : Z) : string :=
  "SELECT * FROM (" +:+ LF +:+ "  SELECT a.*, ROWNUM rnum FROM (" +:+ LF +:+
  inner +:+ LF +:+ "  ) a WHERE ROWNUM <= " +:+ pretty bound +:+ LF +:+
  ") WHERE rnum > " +:+ pretty skipped.

(** The OFFSET clause of the native strategy, as section 4.4 words it. *)
Definition nativeOffsetClause (off : JS.value) : string :=
  if JS.truthy off then " OFFSET " +:+ JS.numberToString (JS.parseInt off) +:+ " ROWS"
  else "".

(** Sample queries: a row limit, an offset and a version override, and
    nothing projected. *)
Definition paged (limit' : JS.value) (offset' : JS.value) (version : option string)
    : OracleQuery :=
  {| rowLimit := limit'; options := None; offset := offset';
     oracleVersion := version; forSelect := [] |}.

Definition page_5_10 : OracleQuery :=
  paged (JS.Number (JS.Int 10)) (JS.Number (JS.Int 5)) (Some "11.2").

(** The major component of a version string: the text before the first dot. *)
Fixpoint majorComponent (version : string) : string :=
  match version with
  | EmptyString => ""
  | String c rest => if bool_decide (c = "."%char) then "" else String c (majorComponent rest)
  end.

(** The specification's Interval: a mapping from unit to signed integer
    magnitude in which only the mentioned units are present.  [asParsed] is
    the object the dialect reads it from. *)
Abbreviation Interval := (gmap string Z).

Definition asParsed (iv : Interval) : ParsedInterval := JS.Int <$> iv.

Definition magnitude (iv : Interval) (unit : string) : Z := default 0%Z (iv !! unit).

(** Section 4.3: [year * 12 + quarter * 3 + month], one calendar step when
    the sum is not zero. *)
Definition combinedMonths (iv : Interval) : Z :=
  (magnitude iv "year" * 12 + magnitude iv "quarter" * 3 + magnitude iv "month")%Z.

Definition calendarStep (x : string) (months : Z) : string :=
  if bool_decide (months = 0%Z) then x
  else "ADD_MONTHS(" +:+ x +:+ ", " +:+ pretty months +:+ ")".

Definition durationUnits : list (string * string) :=
  [("day", "DAY"); ("hour", "HOUR"); ("minute", "MINUTE"); ("second", "SECOND")].

Definition durationTerm (sign res : string) (n : Z) (token : string) : string :=
  res +:+ " " +:+ sign +:+ " NUMTODSINTERVAL(" +:+ pretty n +:+ ", '" +:+ token +:+ "')".

(** Section 4.3 as worded: one term for each duration unit present. *)
Definition durationTermsAsStated (sign : string) (iv : Interval) (base : string) : string :=
  foldl (λ res unit,
           match iv !! unit.1 with
           | Some n => durationTerm sign res n unit.2
           | None => res
           end) base durationUnits.

(** What the dialect does: one term for each duration unit present with a
    magnitude other than zero. *)
Definition durationTerms (sign : string) (iv : Interval) (base : string) : string :=
  foldl (λ res unit,
           match iv !! unit.1 with
           | Some n => if bool_decide (n = 0%Z) then res else durationTerm sign res n unit.2
           | None => res
           end) base durationUnits.

Definition addIntervalAsStated (x : string) (iv : Interval) : string :=
  durationTermsAsStated "+" iv (calendarStep x (combinedMonths iv)).

Definition addIntervalFolded (x : string) (iv : Interval) : string :=
  durationTerms "+" iv (calendarStep x (combinedMonths iv)).

(** The same expression with every magnitude's sign flipped: the calendar
    step takes the negated sum and the duration terms are subtracted. *)
Definition subtractIntervalFolded (x : string) (iv : Interval) : string :=
  durationTerms "-" iv (calendarStep x (- combinedMonths iv)).

(** A projected member has a selectable expression when it is a dimension
    whose [selectColumns()] does not return null. *)
Definition hasSelectableExpression (item : SelectItem) : Prop :=
  JS.truthy (dimension item) = true ∧ ∃ columns, selectColumns item = Some (Some columns).

(** A match type is absent when ToBoolean makes it false. *)
Definition absent (v : JS.value) : Prop := JS.truthy v = false.

Global Instance absent_dec (v : JS.value) : Decision (absent v).
Proof. unfold absent. apply _. Defined.

Definition leadingWildcard (type : JS.value) : string :=
  if decide (absent type ∨ type = JS.Str "contains" ∨ type = JS.Str "ends")
  then "'%' || " else "".

Definition trailingWildcard (type : JS.value) : string :=
  if decide (absent type ∨ type = JS.Str "contains" ∨ type = JS.Str "starts")
  then " || '%'" else "".

Definition notKeyword (negated : JS.value) : string :=
  if decide (absent negated) then "" else " NOT".

(** The dialect's maximum identifier length, as the check has it. *)
Definition maxIdentifierLength : nat := 128.

Definition mentions (needle text : string) : Prop :=
  ∃ before after, text = before +:+ needle +:+ after.

(** A sample projection: a dimension, a time dimension without granularity
    (its [selectColumns()] is null), a measure and another dimension. *)
Definition projected : OracleQuery :=
  {| rowLimit := JS.Undefined; options := None; offset := JS.Undefined;
     oracleVersion := None;
     forSelect :=
       [ {| dimension := JS.Str "visitors.source";
            selectColumns := Some (Some ["src"]);
            dimensionSql := "visitors.source_col" |};
         {| dimension := JS.Str "visitors.createdAt";
            selectColumns := Some None;
            dimensionSql := "visitors.created_at" |};
         {| dimension := JS.Undefined;
            selectColumns := Some (Some ["cnt"]);
            dimensionSql := "" |};
         {| dimension := JS.Str "visitors.id";
            selectColumns := Some (Some ["id"]);
            dimensionSql := "visitors.id_col" |} ] |}.

(** An interval the dialect's arithmetic is exact on: the calendar units
    are small enough for [year * 12], [quarter * 3] and every partial sum of
    the month total to be safe integers, and the duration units are safe
    integers. *)
Definition safeInterval (iv : Interval) : Prop :=
  JS.isSafeInteger
    (JS.Int (Z.abs (magnitude iv "year") * 12 + Z.abs (magnitude iv "quarter") * 3
             + Z.abs (magnitude iv "month"))) = true
  ∧ JS.isSafeInteger (JS.Int (magnitude iv "day")) = true
  ∧ JS.isSafeInteger (JS.Int (magnitude iv "hour")) = true
  ∧ JS.isSafeInteger (JS.Int (magnitude iv "minute")) = true
  ∧ JS.isSafeInteger (JS.Int (magnitude iv "second")) = true.

(** An interval that moves a date nowhere: the calendar units cancel out
    and every duration unit is absent or zero. *)
Definition leavesDateInPlace (iv : Interval) : Prop :=
  combinedMonths iv = 0%Z ∧ magnitude iv "day" = 0%Z ∧ magnitude iv "hour" = 0%Z
  ∧ magnitude iv "minute" = 0%Z ∧ magnitude iv "second" = 0%Z.

(** The second listing's pagination, as its own comments and its tests
    describe it.  [usableLimit] is the limit text when there is one;
    [rowsToSkip] is the offset when it is a positive integer; the form is
    the statement itself, one wrap bounded by the limit, or two wraps that
    number the rows, bound them by offset plus limit when there is a limit,
    and keep the rows numbered above the offset. *)
Definition usableLimit (limitExpression : option string) : option string :=
  match limitExpression with
  | Some EmptyString => None
  | other => other
  end.

Definition rowsToSkip (offsetValue : option JS.number) : option Z :=
  match offsetValue with
  | Some (JS.Int k) => if (0 <? k)%Z then Some k else None
  | _ => None
  end.

Definition rowNumberForm (rowNumAlias sql : string) (limit : option string) (skip : option Z)
    : string :=
  match limit, skip with
  | None, None => sql
  | Some l, None =>
      "SELECT * FROM (" +:+ sql +:+ ") pagination_q WHERE ROWNUM <= (" +:+ l +:+ ")"
  | Some l, Some k =>
      "SELECT * FROM (SELECT inner_q.*, ROWNUM " +:+ rowNumAlias +:+ " FROM (" +:+ sql
      +:+ ") inner_q WHERE ROWNUM <= " +:+ pretty k +:+ " + (" +:+ l +:+ ")) outer_q WHERE "
      +:+ rowNumAlias +:+ " > " +:+ pretty k +:+ " AND " +:+ rowNumAlias +:+ " <= "
      +:+ pretty k +:+ " + (" +:+ l +:+ ")"
  | None, Some k =>
      "SELECT * FROM (SELECT inner_q.*, ROWNUM " +:+ rowNumAlias +:+ " FROM (" +:+ sql
      +:+ ") inner_q) outer_q WHERE " +:+ rowNumAlias +:+ " > " +:+ pretty k
  end.

(** The base class quotes an identifier with double quotes, as the tests of
    the second listing show. *)
Definition quoteIdentifier (name : string) : string := DQ +:+ name +:+ DQ.

(** What a limit or an offset reads as: the safe integer it denotes, or
    nothing when it is unreadable. *)
Definition readsAs (v : JS.value) (reading : option Z) : Prop :=
  match reading with
  | Some k => denotes v k
  | None => unreadable v
  end.

(** The rows an offset skips: the integer it reads as, when positive. *)
Definition skipped (reading : option Z) : option Z :=
  match reading with
  | Some k => if (0 <? k)%Z then Some k else None
  | None => None
  end.

(** A sample projection in which every dimension has select columns. *)
Definition projectedWithColumns : OracleQuery :=
  {| rowLimit := JS.Undefined; options := None; offset := JS.Undefined;
     oracleVersion := None;
     forSelect :=
       [ {| dimension := JS.Str "visitors.source";
            selectColumns := Some (Some ["src"]);
            dimensionSql := "visitors.source_col" |};
         {| dimension := JS.Undefined;
            selectColumns := None;
            dimensionSql := "" |} ] |}.

(** * Properties *)

(** ** Strings *)

Lemma app_assoc_string (a b c : string) : (a +:+ b) +:+ c = a +:+ b +:+ c.
Proof. induction a as [|x a IH]; [done|]. unfold String.app in *; simpl. by rewrite IH. Qed.

Lemma app_empty_r (a : string) : a +:+ "" = a.
Proof. induction a as [|x a IH]; [done|]. unfold String.app in *; simpl. by rewrite IH. Qed.

Lemma length_app_string (a b : string) :
  String.length (a +:+ b) = String.length a + String.length b.
Proof. induction a as [|x a IH]; [done|]. unfold String.app in *; simpl. by rewrite IH. Qed.

(** ** parseInt reads back what Number::toString prints *)

Lemma digitValue_pretty_N_char (d : N) :
  (d < 10)%N → JS.digitValue (pretty_N_char d) = Some (Z.of_N d).
Proof.
  intros Hd.
  assert (d = 0 ∨ d = 1 ∨ d = 2 ∨ d = 3 ∨ d = 4 ∨ d = 5 ∨ d = 6 ∨ d = 7
          ∨ d = 8 ∨ d = 9)%N as Hcases by lia.
  repeat destruct Hcases as [->|Hcases]; try subst d; reflexivity.
Qed.

Lemma parseDigits_pretty_N_go (x : N) :
  ∃ k : Z, (0 ≤ k)%Z ∧ ∀ s acc,
    JS.parseDigits (pretty_N_go x s) acc
    = JS.parseDigits s (acc * 10 ^ k + Z.of_N x).
Proof.
  induction (N.lt_wf_0 x) as [x _ IH].
  destruct (decide (x = 0)%N) as [->|Hx].
  - exists 0%Z. split; [done|]. intros s acc. rewrite pretty_N_go_0. f_equal. lia.
  - destruct (IH (x `div` 10)%N) as (k & Hk & Hgo).
    { apply N.div_lt; lia. }
    exists (Z.succ k). split; [lia|]. intros s acc.
    rewrite pretty_N_go_step by lia. rewrite Hgo. simpl.
    rewrite digitValue_pretty_N_char by (apply N.mod_lt; lia).
    f_equal. rewrite Z.pow_succ_r by done.
    pose proof (N.div_mod x 10 ltac:(lia)) as Hdm.
    assert (Z.of_N x = 10 * Z.of_N (x `div` 10) + Z.of_N (x `mod` 10))%Z by lia.
    lia.
Qed.

Lemma pretty_N_go_head (x : N) (s : string) :
  (0 < x)%N → ∃ c rest, pretty_N_go x s = String c rest ∧ isDigit c.
Proof.
  revert s. induction (N.lt_wf_0 x) as [x _ IH]. intros s Hx.
  rewrite pretty_N_go_step by done.
  destruct (decide (x `div` 10 = 0)%N) as [->|Hq].
  - rewrite pretty_N_go_0. eexists _, _. split; [done|].
    unfold isDigit. rewrite digitValue_pretty_N_char by (apply N.mod_lt; lia). done.
  - apply IH; [apply N.div_lt; lia | by apply N.neq_0_lt_0].
Qed.

Lemma parseIntString_digit (c : ascii) (rest : string) :
  isDigit c → JS.parseIntString (String c rest) = JS.Int (JS.parseDigits (String c rest) 0).
Proof.
  intros [d Hd].
  destruct c as [[] [] [] [] [] [] [] []]; vm_compute in Hd; try discriminate Hd;
    clear Hd; unfold JS.parseIntString, JS.parseMagnitude; simpl; f_equal;
    match goal with |- (1 * ?t)%Z = _ => destruct t; reflexivity end.
Qed.

Lemma parseIntString_minus_digit (c : ascii) (rest : string) :
  isDigit c →
  JS.parseIntString (String "-" (String c rest))
  = JS.Int (- JS.parseDigits (String c rest) 0).
Proof.
  intros [d Hd].
  destruct c as [[] [] [] [] [] [] [] []]; vm_compute in Hd; try discriminate Hd;
    clear Hd; unfold JS.parseIntString, JS.parseMagnitude; simpl; f_equal;
    match goal with |- (-1 * ?t)%Z = _ => destruct t; reflexivity end.
Qed.

Lemma parseIntString_pretty_positive (p : positive) :
  JS.parseIntString (pretty (N.pos p)) = JS.Int (Z.pos p)
  ∧ ∃ c rest, pretty (N.pos p) = String c rest ∧ isDigit c.
Proof.
  unfold pretty, pretty_N. destruct (decide (N.pos p = 0%N)) as [|_]; [done|].
  destruct (pretty_N_go_head (N.pos p) "") as (c & rest & Heq & Hc); [lia|].
  split; [|by eauto].
  destruct (parseDigits_pretty_N_go (N.pos p)) as (k & _ & Hgo).
  rewrite Heq, parseIntString_digit by done. rewrite <- Heq, Hgo. simpl. done.
Qed.

(** Printing a safe integer and parsing the text gives the integer back:
    [parseInt(String(z), 10) === z]. *)
Lemma parseInt_numberToString (z : Z) :
  JS.isSafeInteger (JS.Int z) = true →
  JS.parseInt (JS.Number (JS.Int z)) = JS.Int z.
Proof.
  intros _. unfold JS.parseInt; simpl. destruct z as [|p|p].
  - reflexivity.
  - apply parseIntString_pretty_positive.
  - change (pretty (Z.neg p)) with ("-" +:+ pretty (N.pos p)).
    destruct (parseIntString_pretty_positive p) as (Hval & c & rest & Heq & Hc).
    rewrite Heq in *. change ("-" +:+ String c rest) with (String "-" (String c rest)).
    rewrite parseIntString_minus_digit by done.
    rewrite parseIntString_digit in Hval by done.
    assert (JS.parseDigits (String c rest) 0 = Z.pos p) as -> by congruence. done.
Qed.

Example parseInt_examples :
  JS.parseIntString "11" = JS.Int 11
  ∧ JS.parseIntString "  -42abc" = JS.Int (-42)
  ∧ JS.parseIntString "+7" = JS.Int 7
  ∧ JS.parseIntString "abc" = JS.NaN
  ∧ JS.parseIntString "" = JS.NaN
  ∧ JS.parseIntString "-" = JS.NaN
  ∧ JS.parseInt (JS.Number (JS.Infinity false)) = JS.NaN
  ∧ JS.split "."%char "11.2.0.4" = ["11"; "2"; "0"; "4"]
  ∧ JS.split "."%char "" = [""]
  ∧ JS.split "."%char "a." = ["a"; ""].
Proof. repeat split; reflexivity. Qed.

(** ** Pagination by ROWNUM wrapping *)

Lemma denotes_not_null (v : JS.value) (k : Z) : denotes v k → v ≠ JS.Null.
Proof. intros [_ [->|(s & -> & _)]]; done. Qed.

Lemma denotes_parseInt (v : JS.value) (k : Z) : denotes v k → JS.parseInt v = JS.Int k.
Proof. intros [Hsafe [->|(s & -> & Hs)]]; [by apply parseInt_numberToString | exact Hs]. Qed.

Lemma denotes_truthy (v : JS.value) (k : Z) : denotes v k → k ≠ 0%Z → JS.truthy v = true.
Proof.
  intros [_ [->|(s & -> & Hs)]] Hk; simpl.
  - by apply negb_true_iff, Z.eqb_neq.
  - destruct s; [done|reflexivity].
Qed.

Lemma parseRowLimit_denotes (v : JS.value) (n : Z) :
  denotes v n → parseRowLimit v = JS.Int n.
Proof.
  intros [_ [->|(s & -> & Hs)]]; [done|].
  unfold parseRowLimit, JS.parseInt; simpl. by rewrite Hs.
Qed.

(** The offset the wrapper works with: [this.offset ? parseInt(...) : 0]. *)
Lemma wrapQueryWithRownum_unfold (this : OracleQuery) (query : string) :
  resolvedRowLimit this ≠ JS.Null ∨ JS.truthy (offset this) = true →
  wrapQueryWithRownum this query =
    let limit := parseRowLimit (resolvedRowLimit this) in
    let offset :=
      if JS.truthy (offset this) then JS.parseInt (offset this) else JS.Int 0 in
    if JS.strictEq offset (JS.Int 0)
    then "SELECT * FROM (" +:+ query +:+ ") WHERE ROWNUM <= " +:+ JS.numberToString limit
    else "SELECT * FROM (" +:+ LF +:+ "  SELECT a.*, ROWNUM rnum FROM (" +:+ LF +:+
         query +:+ LF +:+ "  ) a WHERE ROWNUM <= "
         +:+ JS.numberToString (JS.add offset limit) +:+ LF +:+
         ") WHERE rnum > " +:+ JS.numberToString offset.
Proof.
  intros Hpag. unfold wrapQueryWithRownum.
  destruct Hpag as [Hnull|Hoff].
  - by rewrite bool_decide_eq_false_2.
  - by rewrite Hoff, andb_false_r.
Qed.

(** C1. Under the wrapping strategy, a limit of [n] rows with no offset (or
    an offset of 0) wraps the query once, bounding ROWNUM by [n]; with an
    offset of [k] rows as well it wraps twice, the middle layer bounding
    ROWNUM by [k + n] and aliasing it, the outer layer keeping the rows
    whose alias exceeds [k].  The limit, the offset and their sum are safe
    integers, on which the code's [offset + limit] is exact. *)
Theorem wrapQueryWithRownum_forms (this : OracleQuery) (query : string) (n : Z) :
  denotes (resolvedRowLimit this) n →
  (JS.truthy (offset this) = false ∨ denotes (offset this) 0 →
     wrapQueryWithRownum this query = singleWrapForm query n)
  ∧ (∀ k, k ≠ 0%Z → denotes (offset this) k →
     JS.isSafeInteger (JS.Int (k + n)) = true →
     wrapQueryWithRownum this query = doubleWrapForm query (k + n) k).
Proof.
  intros Hlimit.
  pose proof (denotes_not_null _ _ Hlimit) as Hnull.
  pose proof (parseRowLimit_denotes _ _ Hlimit) as Hparse.
  split.
  - intros Hoff. rewrite wrapQueryWithRownum_unfold by auto. rewrite Hparse. cbv zeta.
    destruct (JS.truthy (offset this)) eqn:Htruthy; [|done].
    destruct Hoff as [?|Hzero]; [done|].
    by rewrite (denotes_parseInt _ _ Hzero).
  - intros k Hk Hoff _. rewrite wrapQueryWithRownum_unfold by auto. rewrite Hparse. cbv zeta.
    rewrite (denotes_truthy _ _ Hoff Hk), (denotes_parseInt _ _ Hoff). simpl.
    by rewrite (proj2 (Z.eqb_neq k 0) Hk).
Qed.

Lemma wrapQueryWithRownum_forms_witness :
  wrapQueryWithRownum page_5_10 "SELECT 1 FROM t"
  = "SELECT * FROM (" +:+ LF +:+ "  SELECT a.*, ROWNUM rnum FROM (" +:+ LF +:+
    "SELECT 1 FROM t" +:+ LF +:+ "  ) a WHERE ROWNUM <= 15" +:+ LF +:+
    ") WHERE rnum > 5".
Proof.
  assert (denotes (resolvedRowLimit page_5_10) 10) as Hlimit
    by (split; [reflexivity | left; reflexivity]).
  assert (denotes (offset page_5_10) 5) as Hoffset
    by (split; [reflexivity | left; reflexivity]).
  exact (proj2 (wrapQueryWithRownum_forms page_5_10 "SELECT 1 FROM t" 10%Z Hlimit)
           5%Z ltac:(lia) Hoffset eq_refl).
Defined.

(** ** Absent limit and null limit *)

Lemma supportsOffsetFetch_version (q1 q2 : OracleQuery) :
  oracleVersion q1 = oracleVersion q2 → supportsOffsetFetch q1 = supportsOffsetFetch q2.
Proof. unfold supportsOffsetFetch. by intros ->. Qed.

Lemma string_neq_by_length (a b : string) : String.length a ≠ String.length b → a ≠ b.
Proof. by intros Hlen ->. Qed.

(** Whenever the wrapper does not return the query as it is, the query is
    really wrapped: the text grows. *)
Lemma wrapQueryWithRownum_longer (this : OracleQuery) (query : string) :
  resolvedRowLimit this ≠ JS.Null ∨ JS.truthy (offset this) = true →
  String.length query < String.length (wrapQueryWithRownum this query).
Proof.
  intros Hpag. rewrite wrapQueryWithRownum_unfold by done. cbv zeta.
  destruct (JS.strictEq _ _); rewrite !length_app_string; simpl; lia.
Qed.

Lemma groupByDimensionLimit_native (this : OracleQuery) :
  supportsOffsetFetch this = true →
  groupByDimensionLimit this =
    nativeOffsetClause (offset this) +:+
    (if bool_decide (resolvedRowLimit this = JS.Null) then ""
     else " FETCH NEXT " +:+ JS.numberToString (parseRowLimit (resolvedRowLimit this))
          +:+ " ROWS ONLY").
Proof. intros Hs. unfold groupByDimensionLimit. by rewrite Hs. Qed.

Lemma buildSqlAndParams_native (this : OracleQuery) (unpaginated : string * list JS.value) :
  supportsOffsetFetch this = true →
  buildSqlAndParams this unpaginated
  = (unpaginated.1 +:+ groupByDimensionLimit this, unpaginated.2).
Proof. intros Hs. unfold buildSqlAndParams, superBuildSqlAndParams. by rewrite Hs. Qed.

Lemma buildSqlAndParams_wrapping (this : OracleQuery) (unpaginated : string * list JS.value) :
  supportsOffsetFetch this = false →
  buildSqlAndParams this unpaginated
  = if negb (bool_decide (resolvedRowLimit this = JS.Null)) || JS.truthy (offset this)
    then (wrapQueryWithRownum this unpaginated.1, unpaginated.2)
    else unpaginated.
Proof.
  intros Hs. unfold buildSqlAndParams, superBuildSqlAndParams, groupByDimensionLimit.
  rewrite Hs. simpl. rewrite app_empty_r. by destruct unpaginated, (_ || _).
Qed.

(** Two builds that differ only in the limit, one leaving it absent and one
    giving an explicit null.  Native strategy: the absent limit appends
    FETCH NEXT 10000 ROWS ONLY after the OFFSET clause, the null limit
    appends the OFFSET clause alone, and the two texts differ.  ROWNUM
    wrapping without an offset: the absent limit wraps once with the bound
    10000, the null limit returns the query unwrapped, and the two differ.
    ROWNUM wrapping with an offset: the null limit is not told apart from
    the absent one, both builds give the same wrapped text. *)
Lemma absent_limit_is_default_null_is_unbounded
    (absent explicitNull : OracleQuery) (unpaginated : string * list JS.value) :
  resolvedRowLimit absent = JS.Undefined →
  resolvedRowLimit explicitNull = JS.Null →
  offset absent = offset explicitNull →
  oracleVersion absent = oracleVersion explicitNull →
  let sql := unpaginated.1 in
  let params := unpaginated.2 in
  match supportsOffsetFetch absent, JS.truthy (offset absent) with
  | true, _ =>
      buildSqlAndParams absent unpaginated
      = (sql +:+ nativeOffsetClause (offset absent) +:+ " FETCH NEXT 10000 ROWS ONLY",
         params)
      ∧ buildSqlAndParams explicitNull unpaginated
        = (sql +:+ nativeOffsetClause (offset absent), params)
      ∧ buildSqlAndParams absent unpaginated ≠ buildSqlAndParams explicitNull unpaginated
  | false, false =>
      buildSqlAndParams absent unpaginated = (singleWrapForm sql 10000, params)
      ∧ buildSqlAndParams explicitNull unpaginated = (sql, params)
      ∧ buildSqlAndParams absent unpaginated ≠ buildSqlAndParams explicitNull unpaginated
  | false, true =>
      buildSqlAndParams explicitNull unpaginated = buildSqlAndParams absent unpaginated
      ∧ String.length sql < String.length (buildSqlAndParams explicitNull unpaginated).1
  end.
Proof.
  intros Habsent Hnull Hoff Hver sql params.
  pose proof (supportsOffsetFetch_version _ _ Hver) as Hsup.
  destruct (supportsOffsetFetch absent) eqn:Hs; symmetry in Hsup.
  - rewrite !buildSqlAndParams_native, !groupByDimensionLimit_native by done.
    rewrite Habsent, Hnull, <- Hoff. simpl. rewrite app_empty_r.
    split_and!; [done..|].
    intros [= Heq]. revert Heq. apply string_neq_by_length.
    fold sql. rewrite !length_app_string. simpl. lia.
  - rewrite !buildSqlAndParams_wrapping by done.
    rewrite Habsent, Hnull, <- Hoff. simpl.
    destruct (JS.truthy (offset absent)) eqn:Htruthy; simpl.
    + split; [|apply wrapQueryWithRownum_longer; rewrite <- ?Hoff; auto].
      f_equal. rewrite !wrapQueryWithRownum_unfold by (right; by rewrite <- ?Hoff).
      by rewrite Habsent, Hnull, <- Hoff.
    + assert (wrapQueryWithRownum absent sql = singleWrapForm sql 10000) as Hwrap.
      { rewrite wrapQueryWithRownum_unfold by (left; by rewrite Habsent).
        by rewrite Habsent, Htruthy. }
      fold sql. rewrite Hwrap. split_and!; [done|by destruct unpaginated|].
      destruct unpaginated as [sql' params']. subst sql; simpl.
      intros [= Heq]. revert Heq.
      apply string_neq_by_length. unfold singleWrapForm.
      rewrite !length_app_string. simpl. lia.
Qed.

Lemma absent_limit_is_default_null_is_unbounded_witness :
  let absent := paged JS.Undefined (JS.Number (JS.Int 5)) None in
  let explicitNull := paged JS.Null (JS.Number (JS.Int 5)) None in
  buildSqlAndParams absent ("SELECT 1 FROM t", [])
  = ("SELECT 1 FROM t OFFSET 5 ROWS FETCH NEXT 10000 ROWS ONLY", [])
  ∧ buildSqlAndParams explicitNull ("SELECT 1 FROM t", [])
    = ("SELECT 1 FROM t OFFSET 5 ROWS", [])
  ∧ buildSqlAndParams absent ("SELECT 1 FROM t", [])
    ≠ buildSqlAndParams explicitNull ("SELECT 1 FROM t", []).
Proof.
  exact (absent_limit_is_default_null_is_unbounded
           (paged JS.Undefined (JS.Number (JS.Int 5)) None)
           (paged JS.Null (JS.Number (JS.Int 5)) None)
           ("SELECT 1 FROM t", []) eq_refl eq_refl eq_refl eq_refl).
Defined.

(** C2 fails on the code under ROWNUM wrapping when an offset is present.
    With the version 11.2, an offset of 5 and an explicit null limit, the
    wrapper takes the default bound all the same and emits ROWNUM <= 10005,
    the very text it emits for an absent limit; the native strategy, on the
    same limit and offset, emits the OFFSET clause alone, with no bound. *)
Theorem null_limit_with_offset_is_bounded :
  let absent := paged JS.Undefined (JS.Number (JS.Int 5)) (Some "11.2") in
  let explicitNull := paged JS.Null (JS.Number (JS.Int 5)) (Some "11.2") in
  let native := paged JS.Null (JS.Number (JS.Int 5)) None in
  resolvedRowLimit absent = JS.Undefined
  ∧ resolvedRowLimit explicitNull = JS.Null
  ∧ supportsOffsetFetch explicitNull = false
  ∧ parseRowLimit JS.Null = JS.Int 10000
  ∧ wrapQueryWithRownum explicitNull "SELECT 1 FROM t"
    = doubleWrapForm "SELECT 1 FROM t" 10005 5
  ∧ buildSqlAndParams explicitNull ("SELECT 1 FROM t", [])
    = (doubleWrapForm "SELECT 1 FROM t" 10005 5, [])
  ∧ buildSqlAndParams explicitNull ("SELECT 1 FROM t", [])
    = buildSqlAndParams absent ("SELECT 1 FROM t", [])
  ∧ buildSqlAndParams native ("SELECT 1 FROM t", [])
    = ("SELECT 1 FROM t OFFSET 5 ROWS", []).
Proof. repeat split; vm_compute; reflexivity. Qed.

(** ** Choice of the pagination strategy *)

Lemma head_split (sep : ascii) (s : string) : is_Some (head (JS.split sep s)).
Proof.
  induction s as [|c s IH]; simpl; [done|].
  case_bool_decide; [done|]. by destruct (JS.split sep s).
Qed.

Lemma head_split_dot (version : string) :
  head (JS.split "."%char version) = Some (majorComponent version).
Proof.
  induction version as [|c rest IH]; simpl; [done|].
  case_bool_decide; [done|].
  destruct (JS.split "."%char rest) as [|h t]; simpl in *; [done|]. by injection IH as ->.
Qed.

Lemma head_fmap {A B} (f : A → B) (l : list A) : head (f <$> l) = f <$> head l.
Proof. by destruct l. Qed.

Lemma parseMagnitude_not_infinity (sign : Z) (s : string) (b : bool) :
  JS.parseMagnitude sign s ≠ JS.Infinity b.
Proof. unfold JS.parseMagnitude. destruct s as [|c r]; [done|]. by destruct (JS.digitValue c). Qed.

Lemma parseIntString_not_infinity (s : string) (b : bool) :
  JS.parseIntString s ≠ JS.Infinity b.
Proof.
  unfold JS.parseIntString. destruct (JS.trimStart s) as [|c r].
  - apply parseMagnitude_not_infinity.
  - destruct c as [[] [] [] [] [] [] [] []]; apply parseMagnitude_not_infinity.
Qed.

(** C3, as the code has it.  With no version override, or an empty one, the
    native OFFSET/FETCH clause is used.  Otherwise the text before the first
    dot is read by parseInt: a non-zero integer below 12 selects ROWNUM
    wrapping, an integer of 12 or more selects the native clause, and so do
    an unreadable major component and a major component of 0. *)
Theorem supportsOffsetFetch_by_major (this : OracleQuery) :
  supportsOffsetFetch this =
    match oracleVersion this with
    | None => true
    | Some version =>
        match JS.parseIntString (majorComponent version) with
        | JS.Int major => bool_decide (major = 0 ∨ 12 ≤ major)%Z
        | _ => true
        end
    end.
Proof.
  unfold supportsOffsetFetch. destruct (oracleVersion this) as [version|]; [|done].
  destruct version as [|c rest]; [done|].
  change (JS.truthy (JS.Str (String c rest))) with true. cbv iota zeta.
  rewrite head_fmap, head_split_dot. simpl.
  pose proof (parseIntString_not_infinity (majorComponent (String c rest))) as Hinf.
  destruct (JS.parseIntString _) as [major| |b]; simpl; [|done|by destruct (Hinf b)].
  destruct (Z.eqb_spec major 0) as [->|Hz]; simpl.
  - done.
  - destruct (Z.leb_spec 12 major); symmetry;
      [apply bool_decide_eq_true_2; auto | apply bool_decide_eq_false_2; lia].
Qed.

Example supportsOffsetFetch_versions :
  supportsOffsetFetch (paged JS.Undefined JS.Undefined (Some "11.2")) = false
  ∧ supportsOffsetFetch (paged JS.Undefined JS.Undefined (Some "11.2.0.4")) = false
  ∧ supportsOffsetFetch (paged JS.Undefined JS.Undefined (Some "12.1")) = true
  ∧ supportsOffsetFetch (paged JS.Undefined JS.Undefined (Some "19.3")) = true
  ∧ supportsOffsetFetch (paged JS.Undefined JS.Undefined (Some "invalid")) = true
  ∧ supportsOffsetFetch (paged JS.Undefined JS.Undefined None) = true.
Proof. repeat split; reflexivity. Qed.

(** C3, as stated, fails for a major version of 0: it is an integer below
    12, yet the native clause is selected. *)
Lemma major_version_zero_selects_native :
  JS.parseIntString (majorComponent "0.9") = JS.Int 0
  ∧ (0 < 12)%Z
  ∧ supportsOffsetFetch (paged JS.Undefined JS.Undefined (Some "0.9")) = true.
Proof. repeat split; reflexivity. Qed.

(** ** Interval arithmetic *)

Lemma months_step (total : Z) (p : option Z) (factor : Z) :
  (if JS.truthyProperty (JS.Int <$> p)
   then JS.add (JS.Int total) (JS.mul (JS.propertyToNumber (JS.Int <$> p)) (JS.Int factor))
   else JS.Int total)
  = JS.Int (total + default 0%Z p * factor).
Proof.
  destruct p as [y|]; simpl; [|f_equal; lia].
  destruct (Z.eqb_spec y 0) as [->|]; simpl; f_equal; lia.
Qed.

Lemma months_step_plain (total : Z) (p : option Z) :
  (if JS.truthyProperty (JS.Int <$> p)
   then JS.add (JS.Int total) (JS.propertyToNumber (JS.Int <$> p))
   else JS.Int total)
  = JS.Int (total + default 0%Z p).
Proof.
  destruct p as [y|]; simpl; [|f_equal; lia].
  destruct (Z.eqb_spec y 0) as [->|]; simpl; f_equal; lia.
Qed.

Lemma duration_step (sign res token : string) (p : option Z) :
  (if JS.truthyProperty (JS.Int <$> p)
   then res +:+ " " +:+ sign +:+ " NUMTODSINTERVAL("
        +:+ JS.propertyToString (JS.Int <$> p) +:+ ", '" +:+ token +:+ "')"
   else res)
  = match p with
    | Some n => if bool_decide (n = 0%Z) then res else durationTerm sign res n token
    | None => res
    end.
Proof.
  destruct p as [n|]; simpl; [|done].
  destruct (Z.eqb_spec n 0) as [->|Hn]; simpl; [done|].
  by rewrite bool_decide_eq_false_2.
Qed.

Lemma calendar_step (x separator : string) (total : Z) :
  (if negb (JS.strictEq (JS.Int total) (JS.Int 0))
   then "ADD_MONTHS(" +:+ x +:+ separator +:+ pretty total +:+ ")"
   else x)
  = if bool_decide (total = 0%Z) then x
    else "ADD_MONTHS(" +:+ x +:+ separator +:+ pretty total +:+ ")".
Proof.
  simpl. destruct (Z.eqb_spec total 0); simpl;
    [by rewrite bool_decide_eq_true_2 | by rewrite bool_decide_eq_false_2].
Qed.

(** C4, as the code has it.  For an interval of integer magnitudes on which
    the dialect's arithmetic is exact (safe integers, also for [year * 12],
    [quarter * 3] and the partial sums), [addInterval] folds year, quarter
    and month into one ADD_MONTHS call when their sum is not zero, then
    chains one [+ NUMTODSINTERVAL] term for each of day, hour, minute and
    second, in that order, that is present with a magnitude other than
    zero. *)
Theorem addInterval_folds (parse : string → ParsedInterval) (x i : string) (iv : Interval) :
  parse i = asParsed iv → safeInterval iv →
  addInterval parse x i = addIntervalFolded x iv.
Proof.
  intros Hparse _. unfold addInterval, addIntervalFolded, durationTerms, calendarStep.
  rewrite Hparse. unfold asParsed. rewrite !lookup_fmap. cbv zeta.
  rewrite (months_step 0 _ 12), (months_step _ _ 3), months_step_plain.
  rewrite (calendar_step x ", "). simpl foldl.
  rewrite <- !(duration_step "+").
  replace (0 + default 0%Z (iv !! "year") * 12 + default 0%Z (iv !! "quarter") * 3
           + default 0%Z (iv !! "month"))%Z with (combinedMonths iv)
    by (unfold combinedMonths, magnitude; lia).
  reflexivity.
Qed.

Lemma addInterval_folds_witness :
  addInterval parseSqlInterval "x" "1 year 2 day 3 hour"
  = "ADD_MONTHS(x, 12) + NUMTODSINTERVAL(2, 'DAY') + NUMTODSINTERVAL(3, 'HOUR')".
Proof.
  exact (addInterval_folds parseSqlInterval "x" "1 year 2 day 3 hour"
           {[ "year" := 1; "day" := 2; "hour" := 3 ]}%Z eq_refl
           (conj eq_refl (conj eq_refl (conj eq_refl (conj eq_refl eq_refl))))).
Defined.

Example addInterval_examples (x : string) :
  addInterval parseSqlInterval x "1 year 6 month" = "ADD_MONTHS(" +:+ x +:+ ", 18)"
  ∧ addInterval parseSqlInterval x "2 quarter 3 month" = "ADD_MONTHS(" +:+ x +:+ ", 9)"
  ∧ addInterval parseSqlInterval x "1 year 2 day 3 hour"
    = (("ADD_MONTHS(" +:+ x +:+ ", 12)") +:+ " + NUMTODSINTERVAL(2, 'DAY')")
      +:+ " + NUMTODSINTERVAL(3, 'HOUR')"
  ∧ addInterval (λ _, ∅) x "" = x.
Proof. repeat split; vm_compute; reflexivity. Qed.

(** C4, as stated, fails for a duration unit that is present with the
    magnitude zero: the dialect emits no term for it. *)
Lemma zero_duration_unit_emits_no_term :
  parseSqlInterval "0 day" = asParsed {[ "day" := 0%Z ]}
  ∧ addInterval parseSqlInterval "d" "0 day" = "d"
  ∧ addInterval (λ _, asParsed {[ "day" := 0%Z ]}) "d" "0 day" = "d"
  ∧ addIntervalAsStated "d" {[ "day" := 0%Z ]} = "d + NUMTODSINTERVAL(0, 'DAY')".
Proof. repeat split; vm_compute; reflexivity. Qed.

(** X8. On an interval the arithmetic is exact on and whose month sum is not
    negative, subtraction is addition with the signs flipped: the same
    ADD_MONTHS call with the negated sum and the same NUMTODSINTERVAL terms,
    subtracted. *)
Lemma subtractInterval_folds_nonnegative
    (parse : string → ParsedInterval) (x i : string) (iv : Interval) :
  parse i = asParsed iv → safeInterval iv → (0 ≤ combinedMonths iv)%Z →
  subtractInterval parse x i = subtractIntervalFolded x iv.
Proof.
  intros Hparse _ Hsign.
  unfold subtractInterval, subtractIntervalFolded, durationTerms, calendarStep.
  rewrite Hparse. unfold asParsed. rewrite !lookup_fmap. cbv zeta.
  rewrite (months_step 0 _ 12), (months_step _ _ 3), months_step_plain.
  rewrite (calendar_step x ", -"). simpl foldl.
  rewrite <- !(duration_step "-").
  replace (0 + default 0%Z (iv !! "year") * 12 + default 0%Z (iv !! "quarter") * 3
           + default 0%Z (iv !! "month"))%Z with (combinedMonths iv)
    by (unfold combinedMonths, magnitude; lia).
  destruct (combinedMonths iv) as [|months|months]; [done|done|lia].
Qed.

(** C5 fails on the code when the month sum is negative: the minus sign is
    put in front of the printed sum, so that subtracting "-3 month" renders
    the magnitude as [--3] where the flipped sign is [3]. *)
Theorem subtractInterval_negative_months (x : string) :
  parseSqlInterval "-3 month" = asParsed {[ "month" := (-3)%Z ]}
  ∧ addInterval parseSqlInterval x "-3 month" = "ADD_MONTHS(" +:+ x +:+ ", -3)"
  ∧ subtractInterval parseSqlInterval x "-3 month" = "ADD_MONTHS(" +:+ x +:+ ", --3)"
  ∧ subtractInterval (λ _, asParsed {[ "month" := (-3)%Z ]}) x "-3 month"
    = "ADD_MONTHS(" +:+ x +:+ ", --3)"
  ∧ subtractIntervalFolded x {[ "month" := (-3)%Z ]} = "ADD_MONTHS(" +:+ x +:+ ", 3)"
  ∧ subtractInterval parseSqlInterval x "-3 month"
    ≠ subtractIntervalFolded x {[ "month" := (-3)%Z ]}.
Proof.
  assert (subtractInterval parseSqlInterval x "-3 month"
          = "ADD_MONTHS(" +:+ x +:+ ", --3)") as Hcode by (vm_compute; reflexivity).
  assert (subtractIntervalFolded x {[ "month" := (-3)%Z ]}
          = "ADD_MONTHS(" +:+ x +:+ ", 3)") as Hflipped by (vm_compute; reflexivity).
  split_and!;
    [vm_compute; reflexivity | vm_compute; reflexivity | done
    | vm_compute; reflexivity | done |].
  rewrite Hcode, Hflipped. apply string_neq_by_length.
  rewrite !length_app_string. simpl. lia.
Qed.

(** ** Time bucketing *)

(** Absent granularity is the identity, and the seven granularities of the
    token table truncate with their token. *)
Lemma timeGroupedColumn_tokens (expr : string) :
  timeGroupedColumn JS.Undefined expr = expr
  ∧ timeGroupedColumn JS.Null expr = expr
  ∧ timeGroupedColumn (JS.Str "second") expr = "TRUNC(" +:+ expr +:+ ", 'ss')"
  ∧ timeGroupedColumn (JS.Str "minute") expr = "TRUNC(" +:+ expr +:+ ", 'mm')"
  ∧ timeGroupedColumn (JS.Str "hour") expr = "TRUNC(" +:+ expr +:+ ", 'HH24')"
  ∧ timeGroupedColumn (JS.Str "day") expr = "TRUNC(" +:+ expr +:+ ", 'DD')"
  ∧ timeGroupedColumn (JS.Str "week") expr = "TRUNC(" +:+ expr +:+ ", 'IW')"
  ∧ timeGroupedColumn (JS.Str "month") expr = "TRUNC(" +:+ expr +:+ ", 'MM')"
  ∧ timeGroupedColumn (JS.Str "year") expr = "TRUNC(" +:+ expr +:+ ", 'YYYY')".
Proof. repeat split; vm_compute; reflexivity. Qed.

(** C6 fails on the code for the granularity [quarter]: the token table has
    no entry for it, the lookup gives [undefined], and the text of
    [undefined] is emitted as the truncation token. *)
Theorem timeGroupedColumn_quarter (expr : string) :
  GRANULARITY_VALUE !! "quarter" = None
  ∧ timeGroupedColumn (JS.Str "quarter") expr = "TRUNC(" +:+ expr +:+ ", 'undefined')".
Proof. split; vm_compute; reflexivity. Qed.

(** ** Grouping *)

Lemma isSelectable_spec (item : SelectItem) :
  isSelectable item = true ↔ hasSelectableExpression item.
Proof.
  unfold isSelectable, hasSelectableExpression. rewrite andb_true_iff.
  destruct (selectColumns item) as [[columns|]|].
  - split; intros [Hdim _]; eauto.
  - split; [intros [_ ?]; done | intros [_ [columns ?]]; done].
  - split; [intros [_ ?]; done | intros [_ [columns ?]]; done].
Qed.

Lemma groupByClause_unfold (this : OracleQuery) :
  groupByClause this =
    match filter (λ item, isSelectable item = true) (forSelect this) with
    | [] => ""
    | dimensions => " GROUP BY " +:+ String.concat ", " (dimensionSql <$> dimensions)
    end.
Proof. unfold groupByClause. by destruct (filter _ _). Qed.

(** C7. [groupByClause] keeps the projected members that have a selectable
    expression, in order; it returns the empty string exactly when none is
    kept, otherwise GROUP BY followed by the kept members' full expressions
    joined by a comma; a member whose [selectColumns()] is null (a time
    dimension without granularity) changes nothing, wherever it stands. *)
Theorem groupByClause_by_expression (this : OracleQuery) :
  (groupByClause this = "" ↔ Forall (λ item, ¬ hasSelectableExpression item) (forSelect this))
  ∧ (∀ kept, kept = filter (λ item, isSelectable item = true) (forSelect this) →
       Forall hasSelectableExpression kept
       ∧ (kept ≠ [] →
            groupByClause this
            = " GROUP BY " +:+ String.concat ", " (dimensionSql <$> kept)))
  ∧ (∀ before item after other,
       forSelect this = before ++ item :: after →
       selectColumns item = Some None →
       forSelect other = before ++ after →
       groupByClause this = groupByClause other).
Proof.
  split_and!.
  - rewrite groupByClause_unfold.
    destruct (filter _ _) as [|d ds] eqn:Hkept.
    + split; [intros _|done]. apply Forall_forall. intros item Hin Hsel.
      apply isSelectable_spec in Hsel.
      assert (item ∈ filter (λ item, isSelectable item = true) (forSelect this)) as Hmem
        by (apply list_elem_of_filter; done).
      rewrite Hkept in Hmem. by apply not_elem_of_nil in Hmem.
    + split; [done|]. intros Hnone. exfalso.
      assert (d ∈ filter (λ item, isSelectable item = true) (forSelect this)) as Hmem
        by (rewrite Hkept; left).
      apply list_elem_of_filter in Hmem as [Hsel Hin].
      rewrite Forall_forall in Hnone. apply (Hnone d Hin). by apply isSelectable_spec.
  - intros kept ->. split.
    + apply Forall_forall. intros item [Hsel _]%list_elem_of_filter.
      by apply isSelectable_spec.
    + intros Hne. rewrite groupByClause_unfold. by destruct (filter _ _).
  - intros before item after other Hthis Hnull Hother.
    rewrite !groupByClause_unfold, Hthis, Hother, !filter_app, filter_cons.
    rewrite decide_False; [done|].
    unfold isSelectable. rewrite Hnull, andb_false_r. done.
Qed.

(** ** Malformed limit and offset *)

(** The limit is guarded: whatever is supplied, the bound is a finite
    number, and text that is not numeric falls back to the default. *)
Lemma parseRowLimit_finite (rawLimit : JS.value) : JS.isFinite (parseRowLimit rawLimit) = true.
Proof.
  unfold parseRowLimit. destruct rawLimit as [| |n|s]; try done.
  - by destruct (JS.isFinite n) eqn:Hn.
  - by destruct (JS.isFinite (JS.parseInt (JS.Str s))) eqn:Hs.
Qed.

Lemma parseRowLimit_malformed (s : string) :
  JS.parseIntString s = JS.NaN → parseRowLimit (JS.Str s) = JS.Int 10000.
Proof. intros Hs. unfold parseRowLimit, JS.parseInt; simpl. by rewrite Hs. Qed.

(** C8 fails on the code for the offset: text that is not numeric is not
    treated as absent, [parseInt] turns it into NaN and NaN is printed into
    the OFFSET clause of the native strategy and into both bounds of the
    ROWNUM wrapping. *)
Theorem malformed_offset_emits_NaN :
  JS.parseInt (JS.Str "abc") = JS.NaN
  ∧ parseRowLimit (JS.Str "abc") = JS.Int 10000
  ∧ groupByDimensionLimit (paged (JS.Number (JS.Int 10)) (JS.Str "abc") None)
    = " OFFSET NaN ROWS FETCH NEXT 10 ROWS ONLY"
  ∧ buildSqlAndParams (paged (JS.Number (JS.Int 10)) (JS.Str "abc") (Some "11.2"))
      ("SELECT 1 FROM t", [])
    = ("SELECT * FROM (" +:+ LF +:+ "  SELECT a.*, ROWNUM rnum FROM (" +:+ LF +:+
       "SELECT 1 FROM t" +:+ LF +:+ "  ) a WHERE ROWNUM <= NaN" +:+ LF +:+
       ") WHERE rnum > NaN", []).
Proof. repeat split; vm_compute; reflexivity. Qed.

(** ** Case-insensitive LIKE *)

(** C9. [likeIgnoreCase] allocates the parameter once and renders
    [column [NOT] LIKE ['%' ||] placeholder [|| '%']]: the leading wildcard
    exactly when the match type is absent, contains or ends, the trailing
    one exactly when it is absent, contains or starts, and NOT exactly when
    the negation flag is set. *)
Theorem likeIgnoreCase_pattern (allocate : JS.value → Alloc string)
    (column : string) (negated param type : JS.value) (params : list JS.value) :
  likeIgnoreCase allocate column negated param type params
  = (column +:+ notKeyword negated +:+ " LIKE " +:+ leadingWildcard type
     +:+ (allocate param params).1 +:+ trailingWildcard type,
     (allocate param params).2).
Proof.
  unfold likeIgnoreCase, mbind, Alloc_bind, mret, Alloc_ret.
  destruct (allocate param params) as [placeholder params']. simpl.
  unfold notKeyword, leadingWildcard, trailingWildcard.
  repeat f_equal.
  - destruct (decide (absent negated)) as [Hneg|Hneg]; unfold absent in Hneg.
    + by rewrite Hneg.
    + apply not_false_is_true in Hneg. by rewrite Hneg.
  - case_decide as Hlead; unfold absent in Hlead.
    + destruct Hlead as [->|[->| ->]]; [done|done|done].
    + destruct (JS.truthy type) eqn:Htype; [|naive_solver]. simpl.
      rewrite !bool_decide_eq_false_2; [done|naive_solver..].
  - case_decide as Htrail; unfold absent in Htrail.
    + destruct Htrail as [->|[->| ->]]; [done|done|done].
    + destruct (JS.truthy type) eqn:Htype; [|naive_solver]. simpl.
      rewrite !bool_decide_eq_false_2; [done|naive_solver..].
Qed.

Example likeIgnoreCase_match_types (column : string) :
  (likeIgnoreCase allocateParam column JS.Undefined (JS.Str "v") JS.Undefined []).1
    = column +:+ " LIKE '%' || ? || '%'"
  ∧ (likeIgnoreCase allocateParam column JS.Undefined (JS.Str "v") (JS.Str "contains") []).1
    = column +:+ " LIKE '%' || ? || '%'"
  ∧ (likeIgnoreCase allocateParam column JS.Undefined (JS.Str "v") (JS.Str "starts") []).1
    = column +:+ " LIKE ? || '%'"
  ∧ (likeIgnoreCase allocateParam column JS.Undefined (JS.Str "v") (JS.Str "ends") []).1
    = column +:+ " LIKE '%' || ?"
  ∧ (likeIgnoreCase allocateParam column (JS.Number (JS.Int 1)) (JS.Str "v") (JS.Str "exact") [])
    = (column +:+ " NOT LIKE ?", [JS.Str "v"]).
Proof. repeat split; vm_compute; reflexivity. Qed.

(** ** Identifier length *)

(** C10. [preAggregationTableName] throws a user error exactly when the
    name generated by the base class is longer than the maximum identifier
    length; the message names that identifier and points to the sqlAlias
    attribute; otherwise the generated name is returned as it is. *)
Theorem preAggregationTableName_checks_length
    (generate : string → string → bool → string)
    (cube preAggregationName : string) (skipSchema : bool) :
  let generated := generate cube preAggregationName skipSchema in
  let outcome := preAggregationTableName generate cube preAggregationName skipSchema in
  ((∃ message, outcome = Throw (MkUserError message))
     ↔ maxIdentifierLength < String.length generated)
  ∧ (∀ message, outcome = Throw (MkUserError message) →
       mentions generated message ∧ mentions "sqlAlias" message)
  ∧ (String.length generated ≤ maxIdentifierLength → outcome = Return generated).
Proof.
  intros generated outcome. subst outcome. unfold preAggregationTableName.
  fold generated. unfold maxIdentifierLength.
  destruct (Nat.ltb_spec 128 (String.length generated)) as [Hlong|Hshort].
  - split_and!.
    + split; [done|]. intros _. eauto.
    + intros message [= <-]. split.
      * eexists _, ".". rewrite <- !app_assoc_string. reflexivity.
      * exists "Oracle can not work with table names that longer than 64 symbols. Consider using the '".
        exists ("' attribute in your cube and in your pre-aggregation definition for "
                +:+ generated +:+ ".").
        reflexivity.
    + lia.
  - split_and!.
    + split; [by intros [message ?]|lia].
    + intros message ?. done.
    + done.
Qed.

Lemma preAggregationTableName_checks_length_witness :
  preAggregationTableName (λ cube name _, cube +:+ "_" +:+ name) "visitors" "main" false
  = Return "visitors_main".
Proof.
  exact (proj2 (proj2 (preAggregationTableName_checks_length
                         (λ cube name _, cube +:+ "_" +:+ name) "visitors" "main" false))
           ltac:(vm_compute; lia)).
Defined.

Lemma groupByClause_by_expression_witness :
  groupByClause projected = " GROUP BY visitors.source_col, visitors.id_col".
Proof.
  exact (proj2 (proj1 (proj2 (groupByClause_by_expression projected)) _ eq_refl)
           ltac:(vm_compute; discriminate)).
Defined.

(** * Further properties of the dialect *)

(** ** The row limit *)

(** X1. [parseRowLimit] returns the limit itself when it is a safe integer
    or text that reads as one, and the default 10000 when the limit is null,
    undefined, NaN, an infinity or text without a numeric prefix; whatever
    the limit, the result is never NaN nor an infinity. *)
Theorem parseRowLimit_limit_or_default (rawLimit : JS.value) :
  (∀ n, denotes rawLimit n → parseRowLimit rawLimit = JS.Int n)
  ∧ (unreadable rawLimit → parseRowLimit rawLimit = JS.Int 10000)
  ∧ JS.isFinite (parseRowLimit rawLimit) = true.
Proof.
  split_and!.
  - apply parseRowLimit_denotes.
  - intros [->|[->|[->|[[negative ->]|(s & -> & Hs)]]]]; try done.
    unfold parseRowLimit, JS.parseInt; simpl. by rewrite Hs.
  - apply parseRowLimit_finite.
Qed.

Lemma parseRowLimit_limit_or_default_witness :
  parseRowLimit (JS.Str "12 rows") = JS.Int 12
  ∧ parseRowLimit (JS.Number (JS.Infinity false)) = JS.Int 10000.
Proof.
  split.
  - apply (proj1 (parseRowLimit_limit_or_default (JS.Str "12 rows"))).
    split; [reflexivity|]. right. exists "12 rows". split; reflexivity.
  - apply (proj1 (proj2 (parseRowLimit_limit_or_default (JS.Number (JS.Infinity false))))).
    right. right. right. left. by exists false.
Defined.

(** ** The native clause *)

(** X2. Under the native strategy a limit of [n] rows gives
    [ FETCH NEXT n ROWS ONLY]; an offset of [k] rows, [k] not zero, puts
    [ OFFSET k ROWS] in front of it, and an absent or zero offset puts
    nothing there.  The limit and the offset are safe integers, given as
    numbers or as text. *)
Theorem groupByDimensionLimit_offset_then_fetch (this : OracleQuery) (n : Z) :
  supportsOffsetFetch this = true →
  denotes (resolvedRowLimit this) n →
  (JS.truthy (offset this) = false →
     groupByDimensionLimit this = " FETCH NEXT " +:+ pretty n +:+ " ROWS ONLY")
  ∧ (∀ k, k ≠ 0%Z → denotes (offset this) k →
     groupByDimensionLimit this
     = " OFFSET " +:+ pretty k +:+ " ROWS FETCH NEXT " +:+ pretty n +:+ " ROWS ONLY").
Proof.
  intros Hnative Hlimit.
  rewrite groupByDimensionLimit_native by done. unfold nativeOffsetClause.
  rewrite bool_decide_eq_false_2 by (by eapply denotes_not_null).
  rewrite (parseRowLimit_denotes _ _ Hlimit). split.
  - by intros ->.
  - intros k Hk Hoff.
    rewrite (denotes_truthy _ _ Hoff Hk), (denotes_parseInt _ _ Hoff). simpl.
    by rewrite !app_assoc_string.
Qed.

Lemma groupByDimensionLimit_offset_then_fetch_witness :
  groupByDimensionLimit (paged (JS.Number (JS.Int 50)) (JS.Str "10") (Some "19.3"))
  = " OFFSET 10 ROWS FETCH NEXT 50 ROWS ONLY".
Proof.
  refine (proj2 (groupByDimensionLimit_offset_then_fetch
                   (paged (JS.Number (JS.Int 50)) (JS.Str "10") (Some "19.3")) 50%Z
                   eq_refl _) 10%Z ltac:(lia) _).
  - split; [reflexivity|]. left. reflexivity.
  - split; [reflexivity|]. right. exists "10". split; reflexivity.
Defined.

(** ** The ROWNUM wrapper *)

(** X3. [wrapQueryWithRownum] returns the query as it is exactly when the
    limit is null and there is no offset; in every other case the result is
    a different, longer text. *)
Theorem wrapQueryWithRownum_identity_iff (this : OracleQuery) (query : string) :
  wrapQueryWithRownum this query = query
  ↔ resolvedRowLimit this = JS.Null ∧ JS.truthy (offset this) = false.
Proof.
  split.
  - intros Hsame.
    destruct (decide (resolvedRowLimit this = JS.Null)) as [Hnull|Hnull];
      destruct (JS.truthy (offset this)) eqn:Hoff; try done;
      pose proof (wrapQueryWithRownum_longer this query ltac:(auto)) as Hlen;
      rewrite Hsame in Hlen; lia.
  - intros [Hnull Hoff]. unfold wrapQueryWithRownum. by rewrite Hnull, Hoff.
Qed.

(** X4. Whatever the limit and the offset are, the wrapper keeps the query
    text verbatim inside its result. *)
Theorem wrapQueryWithRownum_keeps_query (this : OracleQuery) (query : string) :
  mentions query (wrapQueryWithRownum this query).
Proof.
  unfold wrapQueryWithRownum, mentions.
  destruct (bool_decide _ && negb _).
  - exists "", "". by rewrite app_empty_r.
  - cbv zeta. destruct (JS.strictEq _ _).
    + by eexists "SELECT * FROM (", _.
    + by eexists ("SELECT * FROM (" +:+ LF +:+ "  SELECT a.*, ROWNUM rnum FROM (" +:+ LF), _.
Qed.

(** ** The version override *)

(** X5. Only the text before the first dot of the version override counts:
    two overrides with the same major component select the same strategy. *)
Theorem supportsOffsetFetch_major_only (this other : OracleQuery) (v w : string) :
  oracleVersion this = Some v →
  oracleVersion other = Some w →
  majorComponent v = majorComponent w →
  supportsOffsetFetch this = supportsOffsetFetch other.
Proof.
  intros Hv Hw Hmajor. unfold supportsOffsetFetch. rewrite Hv, Hw.
  assert (∀ u, (if JS.truthy (JS.Str u)
                then JS.geb (JS.orElse (head (JS.parseIntString <$> JS.split "."%char u))
                                       (JS.Int 12)) (JS.Int 12)
                else true)
               = JS.geb (JS.orElse (Some (JS.parseIntString (majorComponent u)))
                                   (JS.Int 12)) (JS.Int 12)) as Hmajor_only.
  { intros u. rewrite head_fmap, head_split_dot. by destruct u. }
  cbv zeta. by rewrite !Hmajor_only, Hmajor.
Qed.

Lemma supportsOffsetFetch_major_only_witness :
  supportsOffsetFetch (paged JS.Undefined JS.Undefined (Some "11.2"))
  = supportsOffsetFetch (paged JS.Undefined JS.Undefined (Some "11.2.0.4")).
Proof.
  exact (supportsOffsetFetch_major_only
           (paged JS.Undefined JS.Undefined (Some "11.2"))
           (paged JS.Undefined JS.Undefined (Some "11.2.0.4"))
           "11.2" "11.2.0.4" eq_refl eq_refl eq_refl).
Defined.

(** ** Interval arithmetic: what both operations keep *)

Lemma mentions_refl (d : string) : mentions d d.
Proof. exists "", "". by rewrite app_empty_r. Qed.

Lemma mentions_append (d r t : string) : mentions d r → mentions d (r +:+ t).
Proof.
  intros (before & after & ->). exists before, (after +:+ t).
  by rewrite !app_assoc_string.
Qed.

Lemma mentions_add_months (d r t : string) :
  mentions d r → mentions d ("ADD_MONTHS(" +:+ r +:+ t).
Proof.
  intros (before & after & ->). exists ("ADD_MONTHS(" +:+ before), (after +:+ t).
  by rewrite !app_assoc_string.
Qed.

Lemma mentions_if (d a b : string) (c : bool) :
  mentions d a → mentions d b → mentions d (if c then a else b).
Proof. by destruct c. Qed.

Ltac keep_date :=
  repeat first
    [ apply mentions_refl
    | apply mentions_if
    | apply mentions_add_months
    | apply mentions_append ].

(** X6. Both interval operations treat the date expression as opaque text:
    whatever the parsed interval holds, the expression appears verbatim in
    the result. *)
Theorem interval_operations_keep_date
    (parse : string → ParsedInterval) (date interval : string) :
  mentions date (addInterval parse date interval)
  ∧ mentions date (subtractInterval parse date interval).
Proof. split; unfold addInterval, subtractInterval; cbv zeta; keep_date. Qed.

(** X7. Only the seven units year, quarter, month, day, hour, minute and
    second are read: parsed intervals that agree on them give the same
    result, so any other unit (a week, say) is dropped without a trace. *)
Theorem interval_operations_read_seven_units
    (parse parse' : string → ParsedInterval) (date interval interval' : string) :
  (∀ unit, unit ∈ intervalUnits → parse interval !! unit = parse' interval' !! unit) →
  addInterval parse date interval = addInterval parse' date interval'
  ∧ subtractInterval parse date interval = subtractInterval parse' date interval'.
Proof.
  intros Hsame.
  assert (∀ unit, bool_decide (unit ∈ intervalUnits) = true →
                  parse interval !! unit = parse' interval' !! unit) as Hread.
  { intros unit Hin. apply Hsame. by apply bool_decide_eq_true in Hin. }
  unfold addInterval, subtractInterval. cbv zeta.
  by rewrite (Hread "year" eq_refl), (Hread "quarter" eq_refl), (Hread "month" eq_refl),
    (Hread "day" eq_refl), (Hread "hour" eq_refl), (Hread "minute" eq_refl),
    (Hread "second" eq_refl).
Qed.

Lemma interval_operations_read_seven_units_witness :
  addInterval (λ _, {[ "week" := JS.Int 2; "day" := JS.Int 1 ]}) "d" "2 week 1 day"
  = addInterval (λ _, {[ "day" := JS.Int 1 ]}) "d" "1 day"
  ∧ subtractInterval (λ _, {[ "week" := JS.Int 2; "day" := JS.Int 1 ]}) "d" "2 week 1 day"
    = subtractInterval (λ _, {[ "day" := JS.Int 1 ]}) "d" "1 day".
Proof.
  apply (interval_operations_read_seven_units
           (λ _, {[ "week" := JS.Int 2; "day" := JS.Int 1 ]})
           (λ _, {[ "day" := JS.Int 1 ]}) "d" "2 week 1 day" "1 day").
  intros unit Hin. unfold intervalUnits in Hin.
  repeat (apply elem_of_cons in Hin as [->|Hin]; [reflexivity|]).
  by apply elem_of_nil in Hin.
Defined.

Lemma subtractInterval_folds_nonnegative_witness :
  subtractInterval parseSqlInterval "my_date" "1 year 2 day 3 hour"
  = "ADD_MONTHS(my_date, -12) - NUMTODSINTERVAL(2, 'DAY') - NUMTODSINTERVAL(3, 'HOUR')".
Proof.
  exact (subtractInterval_folds_nonnegative parseSqlInterval "my_date" "1 year 2 day 3 hour"
           {[ "year" := 1; "day" := 2; "hour" := 3 ]}%Z eq_refl
           ltac:(repeat split; reflexivity) ltac:(vm_compute; discriminate)).
Defined.

(** The steps of the two operations on an interval of integer magnitudes
    on which the arithmetic is exact. *)
Lemma addInterval_steps (parse : string → ParsedInterval) (x i : string) (iv : Interval) :
  parse i = asParsed iv → safeInterval iv →
  addInterval parse x i = durationTerms "+" iv (calendarStep x (combinedMonths iv)).
Proof.
  intros Hparse _. unfold addInterval, durationTerms, calendarStep.
  rewrite Hparse. unfold asParsed. rewrite !lookup_fmap. cbv zeta.
  rewrite (months_step 0 _ 12), (months_step _ _ 3), months_step_plain.
  rewrite (calendar_step x ", "). simpl foldl.
  rewrite <- !(duration_step "+").
  replace (0 + default 0%Z (iv !! "year") * 12 + default 0%Z (iv !! "quarter") * 3
           + default 0%Z (iv !! "month"))%Z with (combinedMonths iv)
    by (unfold combinedMonths, magnitude; lia).
  reflexivity.
Qed.

Lemma subtractInterval_steps (parse : string → ParsedInterval) (x i : string) (iv : Interval) :
  parse i = asParsed iv → safeInterval iv →
  subtractInterval parse x i
  = durationTerms "-" iv
      (if bool_decide (combinedMonths iv = 0%Z) then x
       else "ADD_MONTHS(" +:+ x +:+ ", -" +:+ pretty (combinedMonths iv) +:+ ")").
Proof.
  intros Hparse _. unfold subtractInterval, durationTerms.
  rewrite Hparse. unfold asParsed. rewrite !lookup_fmap. cbv zeta.
  rewrite (months_step 0 _ 12), (months_step _ _ 3), months_step_plain.
  rewrite (calendar_step x ", -"). simpl foldl.
  rewrite <- !(duration_step "-").
  replace (0 + default 0%Z (iv !! "year") * 12 + default 0%Z (iv !! "quarter") * 3
           + default 0%Z (iv !! "month"))%Z with (combinedMonths iv)
    by (unfold combinedMonths, magnitude; lia).
  reflexivity.
Qed.

Lemma durationTerms_same_units (sign : string) (iv iv' : Interval) (base : string) :
  iv !! "day" = iv' !! "day" → iv !! "hour" = iv' !! "hour" →
  iv !! "minute" = iv' !! "minute" → iv !! "second" = iv' !! "second" →
  durationTerms sign iv base = durationTerms sign iv' base.
Proof. intros Hd Hh Hm Hs. unfold durationTerms. simpl. by rewrite Hd, Hh, Hm, Hs. Qed.

(** X9. Year, quarter and month count only through [year * 12 + quarter * 3
    + month]: two intervals on which the arithmetic is exact, with the same
    sum and the same day, hour, minute and second entries, give the same
    result, for addition and for subtraction (one year is twelve months is
    four quarters). *)
Theorem interval_operations_fold_calendar_units
    (parse parse' : string → ParsedInterval) (x i i' : string) (iv iv' : Interval) :
  parse i = asParsed iv → parse' i' = asParsed iv' →
  safeInterval iv → safeInterval iv' →
  combinedMonths iv = combinedMonths iv' →
  iv !! "day" = iv' !! "day" → iv !! "hour" = iv' !! "hour" →
  iv !! "minute" = iv' !! "minute" → iv !! "second" = iv' !! "second" →
  addInterval parse x i = addInterval parse' x i'
  ∧ subtractInterval parse x i = subtractInterval parse' x i'.
Proof.
  intros Hp Hp' Hsafe Hsafe' Hmonths Hd Hh Hm Hs.
  rewrite (addInterval_steps _ _ _ _ Hp Hsafe), (addInterval_steps _ _ _ _ Hp' Hsafe').
  rewrite (subtractInterval_steps _ _ _ _ Hp Hsafe),
    (subtractInterval_steps _ _ _ _ Hp' Hsafe').
  rewrite Hmonths. split; by apply durationTerms_same_units.
Qed.

Lemma interval_operations_fold_calendar_units_witness :
  addInterval parseSqlInterval "d" "1 year 2 day" = addInterval parseSqlInterval "d" "4 quarter 2 day"
  ∧ subtractInterval parseSqlInterval "d" "1 year 2 day"
    = subtractInterval parseSqlInterval "d" "4 quarter 2 day".
Proof.
  exact (interval_operations_fold_calendar_units parseSqlInterval parseSqlInterval "d"
           "1 year 2 day" "4 quarter 2 day"
           {[ "year" := 1; "day" := 2 ]}%Z {[ "quarter" := 4; "day" := 2 ]}%Z
           eq_refl eq_refl ltac:(repeat split; reflexivity) ltac:(repeat split; reflexivity)
           eq_refl eq_refl eq_refl eq_refl eq_refl).
Defined.

Ltac unchanged_case :=
  split;
    [ intros Heq;
      first
        [ exfalso; apply (f_equal String.length) in Heq; unfold durationTerm in Heq;
          rewrite ?length_app_string in Heq; simpl in Heq; lia
        | by repeat split ]
    | intros (Hmonths & Hday & Hhour & Hminute & Hsecond); simpl in *; congruence ].

(** X10. On an interval of integer magnitudes on which the arithmetic is
    exact, each operation returns the date expression unchanged exactly when
    the interval moves a date nowhere; otherwise the result is a different
    text. *)
Theorem interval_operations_unchanged_iff
    (parse : string → ParsedInterval) (x i : string) (iv : Interval) :
  parse i = asParsed iv → safeInterval iv →
  (addInterval parse x i = x ↔ leavesDateInPlace iv)
  ∧ (subtractInterval parse x i = x ↔ leavesDateInPlace iv).
Proof.
  intros Hparse Hsafe.
  rewrite (addInterval_steps _ _ _ _ Hparse Hsafe),
    (subtractInterval_steps _ _ _ _ Hparse Hsafe). clear Hsafe.
  unfold leavesDateInPlace, durationTerms, calendarStep, magnitude. simpl foldl.
  generalize (combinedMonths iv). intros months.
  destruct (iv !! "day") as [day|], (iv !! "hour") as [hour|],
    (iv !! "minute") as [minute|], (iv !! "second") as [second|];
    repeat case_bool_decide; subst; split; unchanged_case.
Qed.

Lemma interval_operations_unchanged_iff_witness :
  addInterval parseSqlInterval "d" "1 year -12 month 0 day" = "d"
  ∧ subtractInterval parseSqlInterval "d" "1 year -12 month 0 day" = "d".
Proof.
  pose proof (interval_operations_unchanged_iff parseSqlInterval "d" "1 year -12 month 0 day"
                {[ "year" := 1; "month" := -12; "day" := 0 ]}%Z eq_refl
                ltac:(repeat split; reflexivity)) as [Hadd Hsub].
  split; [apply Hadd|apply Hsub]; by vm_compute.
Defined.

(** ** Casts *)

(** X11. The date cast is the timestamp cast of the same parameter wrapped
    in CAST(... AS DATE); the parameter of a time dimension is the filter's
    plain placeholder when the dimension is stored as text, and the
    timestamp cast of [?] otherwise. *)
Theorem dateTimeCast_wraps_timeStampCast (value : string) (timeDimension : TimeDimension) :
  dateTimeCast value = "CAST(" +:+ timeStampCast value +:+ " AS DATE)"
  ∧ timeStampParam timeDimension
    = (if decide (dateFieldType timeDimension = JS.Str "string")
       then castParameter else timeStampCast "?")
  ∧ mentions value (timeStampCast value).
Proof.
  split_and!.
  - unfold dateTimeCast, timeStampCast. rewrite !app_assoc_string. reflexivity.
  - unfold timeStampParam. case_bool_decide; case_decide; done.
  - by eexists ("TO_TIMESTAMP_TZ(:" +:+ DQ), _.
Qed.

(** ** The second listing: pagination by row number *)

Lemma offsetValue_integer (this : OracleQuery) :
  RowNumber.offsetValue this = None ∨ ∃ k, RowNumber.offsetValue this = Some (JS.Int k).
Proof.
  unfold RowNumber.offsetValue. destruct (JS.isNullish _); [by left|].
  pose proof (parseIntString_not_infinity (JS.toString (offset this))) as Hinf.
  unfold JS.parseInt. destruct (JS.parseIntString _) as [k| |b]; simpl; [eauto|by left|].
  by destruct (Hinf b).
Qed.

Lemma offsetValue_denotes (this : OracleQuery) (k : Z) :
  denotes (offset this) k → RowNumber.offsetValue this = Some (JS.Int k).
Proof.
  intros Hk. unfold RowNumber.offsetValue. rewrite (denotes_parseInt _ _ Hk).
  destruct Hk as [_ [Heq|(s & Heq & _)]]; by rewrite Heq.
Qed.

Lemma offsetValue_unreadable (this : OracleQuery) :
  unreadable (offset this) → RowNumber.offsetValue this = None.
Proof.
  unfold RowNumber.offsetValue, JS.parseInt.
  intros [Heq|[Heq|[Heq|[[[] Heq]|(s & Heq & Hs)]]]]; rewrite Heq; try done.
  simpl. by rewrite Hs.
Qed.

(** X12. [offsetValue] reads the offset as an integer or not at all: a safe
    integer, or text that reads as one, gives that integer; null, undefined,
    NaN, the infinities and text without a numeric prefix give null; the
    result is never NaN. *)
Theorem offsetValue_integer_or_null (this : OracleQuery) :
  (∀ k, denotes (offset this) k → RowNumber.offsetValue this = Some (JS.Int k))
  ∧ (unreadable (offset this) → RowNumber.offsetValue this = None)
  ∧ RowNumber.offsetValue this ≠ Some JS.NaN.
Proof.
  split_and!.
  - apply offsetValue_denotes.
  - apply offsetValue_unreadable.
  - by destruct (offsetValue_integer this) as [->|[k ->]].
Qed.

Lemma offsetValue_integer_or_null_witness :
  RowNumber.offsetValue (paged JS.Undefined (JS.Str "5") None) = Some (JS.Int 5)
  ∧ RowNumber.offsetValue (paged JS.Undefined (JS.Str "abc") None) = None.
Proof.
  split.
  - apply (proj1 (offsetValue_integer_or_null (paged JS.Undefined (JS.Str "5") None))).
    split; [reflexivity|]. right. exists "5". split; reflexivity.
  - apply (proj1 (proj2 (offsetValue_integer_or_null (paged JS.Undefined (JS.Str "abc") None)))).
    do 4 right. exists "abc". split; reflexivity.
Defined.

Lemma offset_tests (k : Z) :
  JS.leb (JS.Int k) (JS.Int 0) = negb (0 <? k)%Z
  ∧ JS.truthyNumber (JS.Int k) && JS.gtb (JS.Int k) (JS.Int 0) = (0 <? k)%Z.
Proof. by destruct k. Qed.

Lemma bound_nonempty (a b : string) : (a +:+ " + " +:+ b =? "")%string = false.
Proof. by destruct a. Qed.

(** The whole of [applyRowNumberPagination] in one equation. *)
Lemma applyRowNumberPagination_form
    (MAX : JS.value) (allocate : JS.value → Alloc string) (escape : string → string)
    (this : OracleQuery) (sql : string) (params : list JS.value) :
  RowNumber.applyRowNumberPagination MAX allocate escape this sql params
  = (rowNumberForm (escape "row_num__") sql
       (usableLimit (RowNumber.rowLimitSql MAX allocate this params).1)
       (rowsToSkip (RowNumber.offsetValue this)),
     (RowNumber.rowLimitSql MAX allocate this params).2).
Proof.
  unfold RowNumber.applyRowNumberPagination, mbind, Alloc_bind, mret, Alloc_ret.
  destruct (RowNumber.rowLimitSql MAX allocate this params) as [limitExpression params'].
  cbv zeta. simpl fst. simpl snd. f_equal.
  destruct (offsetValue_integer this) as [->|[k ->]].
  - by destruct limitExpression as [[|c l]|].
  - destruct (offset_tests k) as [-> ->]. simpl rowsToSkip.
    destruct (0 <? k)%Z eqn:Hk.
    + apply Z.ltb_lt in Hk.
      assert (JS.strictEq (JS.Int k) (JS.Int 0) = false) as Hne
        by (simpl; apply Z.eqb_neq; lia).
      assert (JS.gtb (JS.Int k) (JS.Int 0) = true) as Hgt
        by (simpl; apply Z.ltb_lt; lia).
      destruct limitExpression as [[|c l]|]; simpl negb; simpl usableLimit;
        cbv iota beta; rewrite ?andb_false_r, ?andb_false_l, ?Hne, ?Hgt; simpl;
        rewrite ?Hgt, ?bound_nonempty; simpl; rewrite ?app_assoc_string; try done.
    + by destruct limitExpression as [[|c l]|].
Qed.

Lemma rowLimitSql_max (MAX : JS.value) (allocate : JS.value → Alloc string)
    (this : OracleQuery) (params : list JS.value) :
  JS.isNullish (rowLimit this) = false →
  JS.strictEqValue (rowLimit this) MAX = true →
  RowNumber.rowLimitSql MAX allocate this params
  = (Some (allocate MAX params).1, (allocate MAX params).2).
Proof.
  intros Hset Hmax. unfold RowNumber.rowLimitSql, mbind, Alloc_bind, mret, Alloc_ret.
  rewrite Hset, Hmax. by destruct (allocate _ _).
Qed.

Lemma rowLimitSql_nullish (MAX : JS.value) (allocate : JS.value → Alloc string)
    (this : OracleQuery) (params : list JS.value) :
  JS.isNullish (rowLimit this) = true →
  RowNumber.rowLimitSql MAX allocate this params = (None, params).
Proof. intros Hnull. unfold RowNumber.rowLimitSql. by rewrite Hnull. Qed.

Lemma rowLimitSql_not_max (MAX : JS.value) (allocate : JS.value → Alloc string)
    (this : OracleQuery) (params : list JS.value) :
  JS.strictEqValue (rowLimit this) MAX = false →
  RowNumber.rowLimitSql MAX allocate this params
  = (if JS.isNullish (rowLimit this) then None
     else if JS.isNaN (JS.parseInt (rowLimit this)) then None
     else Some (JS.numberToString (JS.parseInt (rowLimit this))), params).
Proof.
  intros Hmax. unfold RowNumber.rowLimitSql, mret, Alloc_ret. rewrite Hmax.
  destruct (JS.isNullish _); [done|]. by destruct (JS.isNaN _).
Qed.

Lemma rowLimitSql_denotes (MAX : JS.value) (allocate : JS.value → Alloc string)
    (this : OracleQuery) (params : list JS.value) (n : Z) :
  JS.strictEqValue (rowLimit this) MAX = false → denotes (rowLimit this) n →
  RowNumber.rowLimitSql MAX allocate this params = (Some (pretty n), params).
Proof.
  intros Hmax Hn. rewrite rowLimitSql_not_max by done.
  rewrite (denotes_parseInt _ _ Hn). by destruct Hn as [_ [Heq|(s & Heq & _)]]; rewrite Heq.
Qed.

Lemma rowLimitSql_unreadable (MAX : JS.value) (allocate : JS.value → Alloc string)
    (this : OracleQuery) (params : list JS.value) :
  JS.strictEqValue (rowLimit this) MAX = false → unreadable (rowLimit this) →
  RowNumber.rowLimitSql MAX allocate this params = (None, params).
Proof.
  intros Hmax Hnone. rewrite rowLimitSql_not_max by done. unfold JS.parseInt.
  destruct Hnone as [Heq|[Heq|[Heq|[[[] Heq]|(s & Heq & Hs)]]]]; rewrite Heq; try done.
  simpl. by rewrite Hs.
Qed.

(** X13. [rowLimitSql] touches the bound parameters only for the shared
    maximum: a limit that is strictly equal to that constant is allocated as
    one parameter and its placeholder returned.  For any other limit the
    parameters are left alone: a safe integer, number or text, is printed
    inline, and null, undefined, NaN, an infinity or text without a numeric
    prefix give null. *)
Theorem rowLimitSql_inline_or_parameter (MAX : JS.value) (allocate : JS.value → Alloc string)
    (this : OracleQuery) (params : list JS.value) :
  (JS.isNullish (rowLimit this) = false → JS.strictEqValue (rowLimit this) MAX = true →
     RowNumber.rowLimitSql MAX allocate this params
     = (Some (allocate MAX params).1, (allocate MAX params).2))
  ∧ (∀ n, JS.strictEqValue (rowLimit this) MAX = false → denotes (rowLimit this) n →
       RowNumber.rowLimitSql MAX allocate this params = (Some (pretty n), params))
  ∧ (JS.strictEqValue (rowLimit this) MAX = false → unreadable (rowLimit this) →
       RowNumber.rowLimitSql MAX allocate this params = (None, params))
  ∧ (JS.isNullish (rowLimit this) = true →
       RowNumber.rowLimitSql MAX allocate this params = (None, params)).
Proof.
  split_and!.
  - apply rowLimitSql_max.
  - intros n. apply rowLimitSql_denotes.
  - apply rowLimitSql_unreadable.
  - apply rowLimitSql_nullish.
Qed.

Lemma rowLimitSql_inline_or_parameter_witness :
  RowNumber.rowLimitSql (JS.Str "__MAX_SOURCE_ROW_LIMIT") allocateParam
    (paged (JS.Str "__MAX_SOURCE_ROW_LIMIT") JS.Undefined None) [JS.Str "a"]
  = (Some "?", [JS.Str "a"; JS.Str "__MAX_SOURCE_ROW_LIMIT"])
  ∧ RowNumber.rowLimitSql (JS.Number (JS.Int 200000)) allocateParam
      (paged (JS.Number (JS.Int 200000)) JS.Undefined None) [JS.Str "a"]
    = (Some "?", [JS.Str "a"; JS.Number (JS.Int 200000)])
  ∧ RowNumber.rowLimitSql (JS.Number (JS.Int 200000)) allocateParam
      (paged (JS.Str "200000") JS.Undefined None) [JS.Str "a"]
    = (Some "200000", [JS.Str "a"]).
Proof.
  split_and!.
  - exact (proj1 (rowLimitSql_inline_or_parameter (JS.Str "__MAX_SOURCE_ROW_LIMIT")
                    allocateParam
                    (paged (JS.Str "__MAX_SOURCE_ROW_LIMIT") JS.Undefined None) [JS.Str "a"])
             eq_refl eq_refl).
  - exact (proj1 (rowLimitSql_inline_or_parameter (JS.Number (JS.Int 200000)) allocateParam
                    (paged (JS.Number (JS.Int 200000)) JS.Undefined None) [JS.Str "a"])
             eq_refl eq_refl).
  - refine (proj1 (proj2 (rowLimitSql_inline_or_parameter (JS.Number (JS.Int 200000))
                            allocateParam
                            (paged (JS.Str "200000") JS.Undefined None) [JS.Str "a"]))
              200000%Z eq_refl _).
    split; [reflexivity|]. right. exists "200000". split; reflexivity.
Defined.

Lemma pretty_Z_nonempty (z : Z) : ∃ c rest, pretty z = String c rest.
Proof.
  destruct z as [|p|p].
  - by eexists _, _.
  - destruct (parseIntString_pretty_positive p) as (_ & c & rest & Heq & _). eauto.
  - change (pretty (Z.neg p)) with ("-" +:+ pretty (N.pos p)). by eexists _, _.
Qed.

Lemma usableLimit_pretty (reading : option Z) :
  usableLimit (pretty <$> reading) = pretty <$> reading.
Proof.
  destruct reading as [n|]; [|done]. simpl.
  by destruct (pretty_Z_nonempty n) as (c & rest & ->).
Qed.

Lemma rowLimitSql_reading (MAX : JS.value) (allocate : JS.value → Alloc string)
    (this : OracleQuery) (params : list JS.value) (reading : option Z) :
  JS.strictEqValue (rowLimit this) MAX = false → readsAs (rowLimit this) reading →
  RowNumber.rowLimitSql MAX allocate this params = (pretty <$> reading, params).
Proof.
  intros Hmax Hread. destruct reading as [n|]; simpl.
  - by apply rowLimitSql_denotes.
  - by apply rowLimitSql_unreadable.
Qed.

Lemma rowsToSkip_reading (this : OracleQuery) (reading : option Z) :
  readsAs (offset this) reading →
  rowsToSkip (RowNumber.offsetValue this) = skipped reading.
Proof.
  intros Hread. destruct reading as [k|]; simpl in *.
  - by rewrite (offsetValue_denotes _ _ Hread).
  - by rewrite (offsetValue_unreadable _ Hread).
Qed.

(** X14. The second listing's pagination, read off its inputs, for a limit
    other than the shared maximum and for limits and offsets that are safe
    integers (numbers or text) or unreadable (null, undefined, NaN, an
    infinity, text without a numeric prefix).  A limit [n] and an offset
    that skips no row wrap the statement once, bounded by [(n)]; an offset
    of [k > 0] rows wraps it twice, the row number bounded by [k + (n)]
    inside and filtered to [> k] and [<= k + (n)] outside; the same offset
    with an unreadable limit wraps twice with the filter [> k] alone; with
    neither the statement is returned as it is.  The bound parameters are
    not touched. *)
Theorem applyRowNumberPagination_forms
    (MAX : JS.value) (allocate : JS.value → Alloc string) (escape : string → string)
    (this : OracleQuery) (sql : string) (params : list JS.value)
    (limitReading offsetReading : option Z) :
  JS.strictEqValue (rowLimit this) MAX = false →
  readsAs (rowLimit this) limitReading →
  readsAs (offset this) offsetReading →
  RowNumber.applyRowNumberPagination MAX allocate escape this sql params
  = (rowNumberForm (escape "row_num__") sql (pretty <$> limitReading)
       (skipped offsetReading), params).
Proof.
  intros Hmax Hlimit Hoffset. rewrite applyRowNumberPagination_form.
  rewrite (rowLimitSql_reading _ _ _ _ _ Hmax Hlimit). simpl.
  by rewrite usableLimit_pretty, (rowsToSkip_reading _ _ Hoffset).
Qed.

Lemma applyRowNumberPagination_forms_witness :
  RowNumber.applyRowNumberPagination (JS.Str "__MAX_SOURCE_ROW_LIMIT") allocateParam
    quoteIdentifier
    (paged (JS.Number (JS.Int 10)) (JS.Number (JS.Int 5)) None) "SELECT 1 FROM t" []
  = ("SELECT * FROM (SELECT inner_q.*, ROWNUM " +:+ DQ +:+ "row_num__" +:+ DQ
     +:+ " FROM (SELECT 1 FROM t) inner_q WHERE ROWNUM <= 5 + (10)) outer_q WHERE "
     +:+ DQ +:+ "row_num__" +:+ DQ +:+ " > 5 AND "
     +:+ DQ +:+ "row_num__" +:+ DQ +:+ " <= 5 + (10)", []).
Proof.
  refine (applyRowNumberPagination_forms (JS.Str "__MAX_SOURCE_ROW_LIMIT") allocateParam
            quoteIdentifier
            (paged (JS.Number (JS.Int 10)) (JS.Number (JS.Int 5)) None) "SELECT 1 FROM t" []
            (Some 10%Z) (Some 5%Z) eq_refl _ _).
  - split; [reflexivity|]. left. reflexivity.
  - split; [reflexivity|]. left. reflexivity.
Defined.

(** X15. For a limit other than the shared maximum, and for a limit and an
    offset that are safe integers or unreadable, the second listing returns
    the statement untouched exactly when the limit is unreadable and the
    offset skips no row (it is unreadable, zero or negative). *)
Theorem applyRowNumberPagination_identity_iff
    (MAX : JS.value) (allocate : JS.value → Alloc string) (escape : string → string)
    (this : OracleQuery) (sql : string) (params : list JS.value)
    (limitReading offsetReading : option Z) :
  JS.strictEqValue (rowLimit this) MAX = false →
  readsAs (rowLimit this) limitReading →
  readsAs (offset this) offsetReading →
  (RowNumber.applyRowNumberPagination MAX allocate escape this sql params).1 = sql
  ↔ limitReading = None ∧ skipped offsetReading = None.
Proof.
  intros Hmax Hlimit Hoffset.
  rewrite applyRowNumberPagination_form, (rowLimitSql_reading _ _ _ _ _ Hmax Hlimit).
  simpl. rewrite usableLimit_pretty, (rowsToSkip_reading _ _ Hoffset).
  assert (∀ a b : string, String.length a < String.length b → b = a → False) as Hlonger
    by (intros a b Hlt ->; lia).
  destruct limitReading as [n|], (skipped offsetReading) as [k|]; simpl.
  all: split;
    [ intros Hsame;
      try (exfalso; revert Hsame; apply Hlonger; rewrite !length_app_string; simpl; lia)
    | intros [Hno Hnone]; try done ].
  done.
Qed.

Lemma applyRowNumberPagination_identity_iff_witness :
  (RowNumber.applyRowNumberPagination (JS.Str "__MAX_SOURCE_ROW_LIMIT") allocateParam
     quoteIdentifier (paged JS.Null (JS.Str "-2") None) "SELECT 1 FROM t" []).1
  = "SELECT 1 FROM t".
Proof.
  refine (proj2 (applyRowNumberPagination_identity_iff (JS.Str "__MAX_SOURCE_ROW_LIMIT")
                   allocateParam quoteIdentifier (paged JS.Null (JS.Str "-2") None)
                   "SELECT 1 FROM t" [] None (Some (-2)%Z) eq_refl _ _) (conj eq_refl eq_refl)).
  - right. left. reflexivity.
  - split; [reflexivity|]. right. exists "-2". split; reflexivity.
Defined.

(** X16. The second listing looks at the offset only for the positive
    number of rows to skip: two queries with the same limit whose offsets,
    safe integers or unreadable, skip the same rows (the same positive
    integer, or none: unreadable, negative, zero) are paginated alike. *)
Theorem applyRowNumberPagination_offset_by_rows_skipped
    (MAX : JS.value) (allocate : JS.value → Alloc string) (escape : string → string)
    (this other : OracleQuery) (sql : string) (params : list JS.value)
    (reading reading' : option Z) :
  rowLimit this = rowLimit other →
  readsAs (offset this) reading →
  readsAs (offset other) reading' →
  skipped reading = skipped reading' →
  RowNumber.applyRowNumberPagination MAX allocate escape this sql params
  = RowNumber.applyRowNumberPagination MAX allocate escape other sql params.
Proof.
  intros Hlimit Hthis Hother Hskip. rewrite !applyRowNumberPagination_form.
  assert (RowNumber.rowLimitSql MAX allocate this params
          = RowNumber.rowLimitSql MAX allocate other params) as ->
    by (unfold RowNumber.rowLimitSql; by rewrite Hlimit).
  by rewrite (rowsToSkip_reading _ _ Hthis), (rowsToSkip_reading _ _ Hother), Hskip.
Qed.

Lemma applyRowNumberPagination_offset_by_rows_skipped_witness :
  RowNumber.applyRowNumberPagination (JS.Str "__MAX_SOURCE_ROW_LIMIT") allocateParam
    quoteIdentifier
    (paged (JS.Number (JS.Int 10)) (JS.Str "abc") None) "SELECT 1 FROM t" []
  = RowNumber.applyRowNumberPagination (JS.Str "__MAX_SOURCE_ROW_LIMIT") allocateParam
      quoteIdentifier
      (paged (JS.Number (JS.Int 10)) (JS.Number (JS.Int (-3))) None) "SELECT 1 FROM t" [].
Proof.
  refine (applyRowNumberPagination_offset_by_rows_skipped (JS.Str "__MAX_SOURCE_ROW_LIMIT")
            allocateParam quoteIdentifier
            (paged (JS.Number (JS.Int 10)) (JS.Str "abc") None)
            (paged (JS.Number (JS.Int 10)) (JS.Number (JS.Int (-3))) None)
            "SELECT 1 FROM t" [] None (Some (-3)%Z) eq_refl _ _ eq_refl).
  - do 4 right. exists "abc". split; reflexivity.
  - split; [reflexivity|]. left. reflexivity.
Defined.

(** ** Grouping in the two listings *)

(** X17. The two listings group alike as long as every projected dimension
    has select columns; they differ only through dimensions whose
    [selectColumns()] is missing or null, which the first listing leaves
    out of GROUP BY and the second keeps. *)
Theorem groupByClause_listings_agree (this : OracleQuery) :
  Forall (λ item, JS.truthy (dimension item) = true →
                  ∃ columns, selectColumns item = Some (Some columns)) (forSelect this) →
  groupByClause this = RowNumber.groupByClause this.
Proof.
  intros Hall. unfold groupByClause, RowNumber.groupByClause.
  assert (filter (λ item, isSelectable item = true) (forSelect this)
          = filter (λ item, JS.truthy (dimension item) = true) (forSelect this)) as ->; [|done].
  induction Hall as [|item items Hitem _ IH]; [done|].
  rewrite !filter_cons, IH. unfold isSelectable.
  destruct (JS.truthy (dimension item)) eqn:Hdim; simpl.
  - destruct (Hitem eq_refl) as [columns ->]. done.
  - done.
Qed.

Lemma groupByClause_listings_agree_witness :
  groupByClause projectedWithColumns = RowNumber.groupByClause projectedWithColumns.
Proof.
  apply (groupByClause_listings_agree projectedWithColumns).
  repeat constructor; [by eexists|discriminate].
Defined.

Example groupByClause_listings_differ :
  groupByClause projected = " GROUP BY visitors.source_col, visitors.id_col"
  ∧ RowNumber.groupByClause projected
    = " GROUP BY visitors.source_col, visitors.created_at, visitors.id_col".
Proof. split; reflexivity. Qed.

(** ** One strategy per build *)

(** X18. A build paginates in exactly one way.  Under the native strategy
    the clause of [groupByDimensionLimit] is appended and nothing is wrapped.
    Under ROWNUM wrapping that clause is empty and the result is the
    wrapper's: the test in [buildSqlAndParams] and the wrapper's own early
    return agree, so the statement comes back unwrapped exactly when the
    limit is null and there is no offset. *)
Theorem buildSqlAndParams_one_strategy (this : OracleQuery)
    (unpaginated : string * list JS.value) :
  if supportsOffsetFetch this
  then buildSqlAndParams this unpaginated
       = (unpaginated.1 +:+ groupByDimensionLimit this, unpaginated.2)
  else groupByDimensionLimit this = ""
       ∧ buildSqlAndParams this unpaginated
         = (wrapQueryWithRownum this unpaginated.1, unpaginated.2).
Proof.
  destruct (supportsOffsetFetch this) eqn:Hs.
  - by apply buildSqlAndParams_native.
  - split; [unfold groupByDimensionLimit; by rewrite Hs|].
    rewrite buildSqlAndParams_wrapping by done.
    destruct (negb _ || _) eqn:Hneeds; [done|].
    apply orb_false_iff in Hneeds as [Hnull%negb_false_iff Hoff].
    unfold wrapQueryWithRownum. rewrite Hnull, Hoff. by destruct unpaginated.
Qed.
